(** * generate-gorm-models: a shallow embedding of [main.go]

    The program reads its configuration from flags and the environment,
    opens a MySQL connection, and for every requested table turns the
    catalog's column descriptors into a Go struct rendered through a fixed
    text template.

    Go strings are byte strings and are modelled by [string].  The functions
    of the Go packages the program calls are modelled next to the program,
    in modules named after their package; [strings.Title] is modelled on the
    ASCII range (see [GoUnicode]).  What the process does to its surroundings
    (environment, files, database server, log) is modelled by a state and
    trace monad, [Proc]. *)

From stdpp Require Import strings gmap list.
From Stdlib Require Import Ascii String List ZArith Lia Bool.
Import ListNotations.

(** * Part I: the program *)

(** ** Package [unicode], on the ASCII range *)

Module GoUnicode.

Definition code (c : ascii) : N := N_of_ascii c.

Definition between (lo hi c : ascii) : bool :=
  ((code lo <=? code c) && (code c <=? code hi))%N.

Definition isLower (c : ascii) : bool := between "a" "z" c.
Definition isUpper (c : ascii) : bool := between "A" "Z" c.
Definition isDigit (c : ascii) : bool := between "0" "9" c.

(** [unicode.ToTitle]: for ASCII the title case is the upper case,
    [r -= 'a' - 'A'] for a lower-case letter.  A byte above [0x7F] is left as
    it is: the case tables of package [unicode] are outside the model. *)
Definition ToTitle (c : ascii) : ascii :=
  if isLower c then ascii_of_N (code c - (code "a" - code "A")) else c.

End GoUnicode.

(** ** Package [strings] *)

Module GoStrings.
Import GoUnicode.

(** [strings.Split(s, sep)] for a one-byte separator, which is what both
    call sites pass (["_"] and [","]): the substrings between the
    separators, so [n] separators give [n + 1] parts and the empty string
    gives one empty part. *)
Fixpoint Split (s : string) (sep : ascii) : list string :=
  match s with
  | EmptyString => [EmptyString]
  | String c rest =>
      if Ascii.eqb c sep then EmptyString :: Split rest sep
      else match Split rest sep with
           | part :: parts => String c part :: parts
           | [] => [String c EmptyString]
           end
  end.

(** [strings.Join(elems, sep)]. *)
Fixpoint Join (elems : list string) (sep : string) : string :=
  match elems with
  | [] => EmptyString
  | e :: rest =>
      match rest with
      | [] => e
      | _ :: _ => e +:+ sep +:+ Join rest sep
      end
  end.

(** [strings.HasPrefix(s, prefix)]. *)
Fixpoint HasPrefix (s prefix : string) : bool :=
  match prefix, s with
  | EmptyString, _ => true
  | String _ _, EmptyString => false
  | String p prefix', String c s' => Ascii.eqb c p && HasPrefix s' prefix'
  end.

(** [strings.Contains(s, substr)]: [substr] occurs at some offset of [s]. *)
Fixpoint Contains (s substr : string) : bool :=
  HasPrefix s substr ||
  match s with
  | EmptyString => false
  | String _ s' => Contains s' substr
  end.

(** [isSeparator] of strings.go: ASCII alphanumerics and underscore are not
    separators, every other ASCII character is.  Above [0x7F] Go asks the
    Unicode tables (letters and digits are no separators, spaces are); the
    model takes such a byte as no separator. *)
Definition isSeparator (r : ascii) : bool :=
  if (code r <=? 127)%N then
    if isDigit r then false
    else if isLower r then false
    else if isUpper r then false
    else if Ascii.eqb r "_" then false
    else true
  else false.

(** [strings.Title]: a [strings.Map] whose closure remembers the previous
    character, starting from a space, and maps a character to its title
    case when the previous one is a separator. *)
Fixpoint Title_from (prev : ascii) (s : string) : string :=
  match s with
  | EmptyString => EmptyString
  | String r rest =>
      String (if isSeparator prev then ToTitle r else r) (Title_from r rest)
  end.

Definition Title (s : string) : string := Title_from " " s.

End GoStrings.

Import GoStrings.

(** ** Package [inflection] *)

Module Inflection.

Definition HasSuffix (s suffix : string) : bool :=
  HasPrefix (String.rev s) (String.rev suffix).

Definition TrimSuffix (s suffix : string) : string :=
  if HasSuffix s suffix
  then substring 0 (String.length s - String.length suffix) s
  else s.

(** Modelled from the spec: the nouns the singularization leaves
    unchanged. *)
Definition uncountable : list string :=
  ["equipment"; "information"; "rice"; "money"; "species"; "series";
   "fish"; "sheep"; "jeans"; "police"].

(** Modelled from the spec: irregular plurals with their singular. *)
Definition irregular : list (string * string) :=
  [("people", "person"); ("men", "man"); ("children", "child")].

(** Modelled from the spec: the first irregular plural the word ends
    with is replaced by its singular. *)
Fixpoint irregularSingular (rules : list (string * string)) (str : string)
  : option string :=
  match rules with
  | [] => None
  | (plural, singular) :: rest =>
      if HasSuffix str plural then Some (TrimSuffix str plural +:+ singular)
      else irregularSingular rest str
  end.

(** Modelled from the spec: [inflection.Singular] is the function of
    github.com/jinzhu/inflection, whose source is not part of the
    repository.  The spec gives its rules as: uncountable nouns unchanged,
    irregular plurals, [-ies] to [-y], trailing [s] stripped; a word that
    none of them matches is returned as it is. *)
Definition Singular (str : string) : string :=
  if existsb (String.eqb str) uncountable then str
  else match irregularSingular irregular str with
       | Some singular => singular
       | None =>
           if HasSuffix str "ies" then TrimSuffix str "ies" +:+ "y"
           else TrimSuffix str "s"
       end.

End Inflection.

(** Go's pair of a value and an [error]: either the value, or the error
    with its message. *)
Inductive result (A : Type) : Type :=
| Ok (a : A)
| Err (e : string).
Arguments Ok {A} a.
Arguments Err {A} e.

(** ** Package [gorm]: the handle and the column descriptors *)

Module Gorm.

(** The two methods of [gorm.ColumnType] the program calls. *)
Record ColumnType := {
  Name : string;
  DatabaseTypeName : string
}.

(** What the program uses of a [*gorm.DB]: [db.Migrator().ColumnTypes],
    the catalog's ordered column descriptors of a table, or an error. *)
Record DB := {
  ColumnTypes : string -> result (list ColumnType)
}.

End Gorm.

(** ** The data model (main.go, lines 40-51) *)

Record Column := {
  Name : string;
  GormName : string;
  Type_ : string
}.

Record Table := {
  TableName : string;
  DBTableName : string;
  Columns : list Column;
  ModelImports : list string
}.

(** ** [camelCase] (main.go, lines 186-192) *)

Definition camelCase (s : string) : string :=
  let parts := Split s "_" in
  let parts := map Title parts in
  Join parts "".

(** ** The body of [generateModel] (main.go, lines 108-184) *)

(** A [case] of a Go [switch] over strings lists the values it accepts. *)
Definition oneOf (s : string) (cases : list string) : bool :=
  existsb (String.eqb s) cases.

(** The [switch] of lines 119-148: the model type of a column and the
    import list after it. *)
Definition switchTypeName (databaseTypeName : string)
    (modelImports : list string) : string * list string :=
  if oneOf databaseTypeName ["datetime"; "timestamp"; "date"; "time"] then
    ("time.Time",
     if negb (Contains (Join modelImports ",") "time")
     then modelImports ++ ["time"] else modelImports)
  else if oneOf databaseTypeName
            ["tinyint"; "smallint"; "mediumint"; "int"; "integer"; "bigint"]
  then ("int", modelImports)
  else if oneOf databaseTypeName ["float"; "double"; "real"] then
    ("float64", modelImports)
  else if oneOf databaseTypeName ["decimal"; "numeric"] then
    ("string", modelImports)
  else if oneOf databaseTypeName
            ["char"; "varchar"; "tinytext"; "text"; "mediumtext"; "longtext"]
  then ("string", modelImports)
  else if oneOf databaseTypeName
            ["binary"; "varbinary"; "tinyblob"; "blob"; "mediumblob";
             "longblob"]
  then ("[]byte", modelImports)
  else if oneOf databaseTypeName ["bit"] then ("[]uint8", modelImports)
  else if oneOf databaseTypeName ["bool"; "boolean"] then
    ("bool", modelImports)
  else if oneOf databaseTypeName ["json"] then
    ("json.RawMessage",
     if negb (Contains (Join modelImports ",") "encoding/json")
     then modelImports ++ ["encoding/json"] else modelImports)
  else if oneOf databaseTypeName ["enum"; "set"] then
    ("string", modelImports)
  else ("string", modelImports).

(** One iteration of the loop of lines 116-157 on the two slices it
    appends to. *)
Definition columnStep (acc : list Column * list string)
    (columnType : Gorm.ColumnType) : list Column * list string :=
  let '(columns, modelImports) := acc in
  let '(modelColumnType, modelImports) :=
    switchTypeName (Gorm.DatabaseTypeName columnType) modelImports in
  let column := {|
    Name := camelCase (Gorm.Name columnType);
    Type_ := modelColumnType;
    GormName := Gorm.Name columnType
  |} in
  (columns ++ [column], modelImports).

(** Lines 109-167: the [Table] handed to the template. *)
Definition tableOf (tableName : string)
    (columnTypes : list Gorm.ColumnType) : Table :=
  let '(columns, modelImports) := fold_left columnStep columnTypes ([], []) in
  let depluraizedTableName := Inflection.Singular tableName in
  {| TableName := camelCase depluraizedTableName;
     Columns := columns;
     DBTableName := tableName;
     ModelImports := modelImports |}.

(** ** [modelTemplate] (main.go, lines 18-38) executed by [text/template] *)

Definition nl : string := String "010" "".
Definition tab : string := String "009" "".
Definition dquote : string := String "034" "".

Definition concatMap {A : Type} (f : A -> string) (l : list A) : string :=
  fold_right (fun x acc => f x +:+ acc) "" l.

(** The text nodes are those of the template; [{{-] trims the white space
    before it, [{{if}}] on a slice is true when the slice is not empty, and
    [text/template] writes field values without escaping. *)
Definition modelTemplate (t : Table) : string :=
  "package models" +:+ nl +:+ nl +:+
  (match ModelImports t with
   | [] => ""
   | _ :: _ =>
       nl +:+ "import (" +:+ nl +:+
       concatMap (fun imp => nl +:+ tab +:+ dquote +:+ imp +:+ dquote +:+ nl)
                 (ModelImports t) +:+
       nl +:+ ")" +:+ nl
   end) +:+
  "    " +:+ nl +:+ nl +:+ nl +:+
  "type " +:+ TableName t +:+ " struct {" +:+
  concatMap (fun c =>
               nl +:+ "    " +:+ Name c +:+ " " +:+ Type_ c +:+
               " `gorm:" +:+ dquote +:+ "column:" +:+ GormName c +:+
               dquote +:+ "`")
            (Columns t) +:+
  nl +:+ "}" +:+ nl +:+ nl +:+
  "func (" +:+ TableName t +:+ ") TableName() string {" +:+ nl +:+
  "    return " +:+ dquote +:+ DBTableName t +:+ dquote +:+ nl +:+
  "}" +:+ nl.

(** ** The process and its surroundings *)

(** What a run of the program can be observed to do. *)
Inductive event : Type :=
| EvLoadEnv (path : string)
| EvOpen (dsn : string)
| EvColumnTypes (tableName : string)
| EvCreate (path : string)
| EvWrite (path text : string)
| EvFatal (msg : string).

(** The surroundings of the process: its environment variables, the files
    it has written, and the answers of the operating system, of the [.env]
    reader and of the database server. *)
Record World := {
  environ : gmap string string;
  files : gmap string string;
  statOk : string -> bool;
  dotenvRead : string -> result (gmap string string);
  mysqlOpen : string -> result Gorm.DB;
  createErr : string -> option string;
  writeErr : string -> option string
}.

Definition setEnviron (e : gmap string string) (w : World) : World :=
  {| environ := e; files := files w; statOk := statOk w;
     dotenvRead := dotenvRead w; mysqlOpen := mysqlOpen w;
     createErr := createErr w; writeErr := writeErr w |}.

Definition setFiles (f : gmap string string) (w : World) : World :=
  {| environ := environ w; files := f; statOk := statOk w;
     dotenvRead := dotenvRead w; mysqlOpen := mysqlOpen w;
     createErr := createErr w; writeErr := writeErr w |}.

(** A step either returns a value or ends the process with an exit status
    ([log.Fatal] is a print followed by [os.Exit(1)]). *)
Inductive outcome (A : Type) : Type :=
| Returned (a : A)
| Exited (status : Z).
Arguments Returned {A} a.
Arguments Exited {A} status.

Definition Proc (A : Type) : Type := World -> list event * World * outcome A.

Definition ret {A : Type} (a : A) : Proc A := fun w => ([], w, Returned a).

Definition bind {A B : Type} (m : Proc A) (k : A -> Proc B) : Proc B :=
  fun w =>
    match m w with
    | (tr, w1, Returned a) =>
        match k a w1 with
        | (tr2, w2, o) => (tr ++ tr2, w2, o)
        end
    | (tr, w1, Exited status) => (tr, w1, Exited status)
    end.

#[global] Instance Proc_ret : MRet Proc := @ret.
#[global] Instance Proc_bind : MBind Proc := fun A B k m => bind m k.

Definition trace {A : Type} (r : list event * World * outcome A) : list event :=
  r.1.1.
Definition final {A : Type} (r : list event * World * outcome A) : World :=
  r.1.2.
Definition result_of {A : Type} (r : list event * World * outcome A)
  : outcome A := r.2.

(** The exit status of the process: [0] when [main] returns. *)
Definition exitStatus {A : Type} (r : list event * World * outcome A) : Z :=
  match result_of r with
  | Returned _ => 0
  | Exited status => status
  end.

Fixpoint forEach {A : Type} (l : list A) (body : A -> Proc unit) : Proc unit :=
  match l with
  | [] => mret tt
  | x :: rest => body x ;; forEach rest body
  end.

(** *** Packages [log], [os], [godotenv], [gorm] and [text/template] *)

Definition log_Fatal {A : Type} (msg : string) : Proc A :=
  fun w => ([EvFatal msg], w, Exited 1).

Definition os_Stat (path : string) : Proc bool :=
  fun w => ([], w, Returned (statOk w path)).

(** [os.Getenv]: the value of the variable, empty when it is not set. *)
Definition Getenv (e : gmap string string) (key : string) : string :=
  default "" (e !! key).

Definition os_Getenv (key : string) : Proc string :=
  fun w => ([], w, Returned (Getenv (environ w) key)).

(** [godotenv.Load]: the variables of the file are set unless the
    environment has them already. *)
Definition godotenv_Load (path : string) : Proc (option string) :=
  fun w =>
    match dotenvRead w path with
    | Err e => ([EvLoadEnv path], w, Returned (Some e))
    | Ok envMap =>
        ([EvLoadEnv path], setEnviron (environ w ∪ envMap) w, Returned None)
    end.

Definition gorm_Open (dsn : string) : Proc (result Gorm.DB) :=
  fun w => ([EvOpen dsn], w, Returned (mysqlOpen w dsn)).

Definition db_ColumnTypes (db : Gorm.DB) (tableName : string)
  : Proc (result (list Gorm.ColumnType)) :=
  fun w => ([EvColumnTypes tableName], w, Returned (Gorm.ColumnTypes db tableName)).

(** [os.Create] truncates or creates the file. *)
Definition os_Create (path : string) : Proc (option string) :=
  fun w =>
    match createErr w path with
    | Some e => ([EvCreate path], w, Returned (Some e))
    | None => ([EvCreate path], setFiles (<[path := ""]> (files w)) w, Returned None)
    end.

(** [tmpl.Execute(file, table)]: the rendered template is written to the
    file. *)
Definition tmpl_Execute (path : string) (table : Table) : Proc (option string) :=
  fun w =>
    match writeErr w path with
    | Some e => ([], w, Returned (Some e))
    | None =>
        ([EvWrite path (modelTemplate table)],
         setFiles (<[path := modelTemplate table]> (files w)) w,
         Returned None)
    end.

(** ** [generateModel] (main.go, lines 108-184) *)

Definition generateModel (db : Gorm.DB) (tableName destPath : string)
  : Proc unit :=
  r ← db_ColumnTypes db tableName;
  match r with
  | Err err =>
      log_Fatal ("Failed to get columns for table " +:+ tableName +:+ ": " +:+ err)
  | Ok columnTypes =>
      let table := tableOf tableName columnTypes in
      (* the fixed template always parses *)
      let path := destPath +:+ "/" +:+ TableName table +:+ ".go" in
      err ← os_Create path;
      match err with
      | Some err => log_Fatal ("Failed to create file: " +:+ err)
      | None =>
          err ← tmpl_Execute path table;
          match err with
          | Some err => log_Fatal ("Failed to execute template: " +:+ err)
          | None => mret tt
          end
      end
  end.

(** ** [main] (main.go, lines 53-106) *)

(** The values of the flags after [flag.Parse]. *)
Record Flags := {
  dest : string;
  env : string;
  dbuser : string;
  dbpassword : string;
  dbhost : string;
  dbport : string;
  dbname : string;
  tables : string
}.

(** Lines 64-70. *)
Definition loadEnvFile (flags : Flags) : Proc unit :=
  found ← os_Stat (env flags);
  if (found : bool) then
    err ← godotenv_Load (env flags);
    match err with
    | Some err => log_Fatal ("Error loading .env file: " +:+ err)
    | None => mret tt
    end
  else mret tt.

(** [if *flag == "" { *flag = os.Getenv(key) }] *)
Definition orGetenv (flag key : string) : Proc string :=
  if String.eqb flag "" then os_Getenv key else mret flag.

(** Lines 72-90: the flag variables after the substitution. *)
Definition substituteEnv (flags : Flags) : Proc Flags :=
  dbUser ← orGetenv (dbuser flags) "DB_USER";
  dbPassword ← orGetenv (dbpassword flags) "DB_PASSWORD";
  dbHost ← orGetenv (dbhost flags) "DB_HOST";
  dbPort ← orGetenv (dbport flags) "DB_PORT";
  dbName ← orGetenv (dbname flags) "DB_NAME";
  tables ← orGetenv (tables flags) "TABLES";
  mret {| dest := dest flags; env := env flags; dbuser := dbUser;
          dbpassword := dbPassword; dbhost := dbHost; dbport := dbPort;
          dbname := dbName; tables := tables |}.

Definition requiredMsg : string :=
  "Database user, password, name, and tables are required".

(** Lines 92-94. *)
Definition requireFields (flags : Flags) : Proc unit :=
  if String.eqb (dbuser flags) "" || String.eqb (dbpassword flags) "" ||
     String.eqb (dbname flags) "" || String.eqb (tables flags) ""
  then log_Fatal requiredMsg
  else mret tt.

(** Lines 96-105. *)
Definition connectAndGenerate (flags : Flags) : Proc unit :=
  let dsn :=
    dbuser flags +:+ ":" +:+ dbpassword flags +:+ "@tcp(" +:+ dbhost flags +:+
    ":" +:+ dbport flags +:+ ")/" +:+ dbname flags in
  r ← gorm_Open dsn;
  match r with
  | Err err => log_Fatal ("Failed to connect to database: " +:+ err)
  | Ok db =>
      let tableNames := Split (tables flags) "," in
      forEach tableNames (fun tableName => generateModel db tableName (dest flags))
  end.

Definition main (flags : Flags) : Proc unit :=
  loadEnvFile flags ;;
  flags ← substituteEnv flags;
  requireFields flags ;;
  connectAndGenerate flags.

(** * Part II: the specification's reading, and what the properties speak of *)

Module Spec.
Import GoUnicode.

(** The generated types the specification's table names. *)
Inductive GeneratedType : Type :=
| TimeValue | IntType | Float64 | StringType
| ByteSeq | Uint8Seq | BoolType | RawJSON.

Definition goTypeName (g : GeneratedType) : string :=
  match g with
  | TimeValue => "time.Time"
  | IntType => "int"
  | Float64 => "float64"
  | StringType => "string"
  | ByteSeq => "[]byte"
  | Uint8Seq => "[]uint8"
  | BoolType => "bool"
  | RawJSON => "json.RawMessage"
  end.

(** The rows of the type mapping table, without the fallback row. *)
Definition mappingTable : list (list string * GeneratedType) :=
  [ (["datetime"; "timestamp"; "date"; "time"], TimeValue);
    (["tinyint"; "smallint"; "mediumint"; "int"; "integer"; "bigint"], IntType);
    (["float"; "double"; "real"], Float64);
    (["decimal"; "numeric"], StringType);
    (["char"; "varchar"; "tinytext"; "text"; "mediumtext"; "longtext"], StringType);
    (["binary"; "varbinary"; "tinyblob"; "blob"; "mediumblob"; "longblob"], ByteSeq);
    (["bit"], Uint8Seq);
    (["bool"; "boolean"], BoolType);
    (["json"], RawJSON);
    (["enum"; "set"], StringType) ].

(** The row of a name, by exact comparison. *)
Fixpoint lookupType (table : list (list string * GeneratedType))
    (name : string) : option GeneratedType :=
  match table with
  | [] => None
  | (names, g) :: rows =>
      if existsb (String.eqb name) names then Some g else lookupType rows name
  end.

Definition lowerChar (c : ascii) : ascii :=
  if isUpper c then ascii_of_N (code c + 32) else c.

Fixpoint toLower (s : string) : string :=
  match s with
  | EmptyString => EmptyString
  | String c rest => String (lowerChar c) (toLower rest)
  end.

(** The documented type of a reported type name: a case-insensitive match
    on the table, with the string fallback. *)
Definition documentedType (name : string) : GeneratedType :=
  default StringType (lookupType mappingTable (toLower name)).

(** The identifier transform in the specification's words: split on ['_'],
    put the first letter of every segment in title case, concatenate
    without a separator. *)
Definition upperFirst (segment : string) : string :=
  match segment with
  | EmptyString => EmptyString
  | String c rest => String (ToTitle c) rest
  end.

Definition pascalCase (s : string) : string :=
  fold_right String.append EmptyString (map upperFirst (Split s "_")).

(** A snake_case identifier is made of lower-case letters, digits and
    underscores. *)
Definition snakeChar (c : ascii) : bool :=
  isLower c || isDigit c || Ascii.eqb c "_".

Definition isSnakeCase (s : string) : bool :=
  forallb snakeChar (list_ascii_of_string s).

End Spec.

(** ** Strings and characters *)

Abbreviation chars := list_ascii_of_string.

Definition alnum (c : ascii) : bool :=
  GoUnicode.isLower c || GoUnicode.isUpper c || GoUnicode.isDigit c.

Definition underscoreFree (s : string) : Prop :=
  Forall (fun c => c <> "_"%char) (chars s).

(** ** The loop of [generateModel], column by column *)

(** The column a descriptor is turned into. *)
Definition columnOf (columnType : Gorm.ColumnType) : Column :=
  {| Name := camelCase (Gorm.Name columnType);
     GormName := Gorm.Name columnType;
     Type_ := (switchTypeName (Gorm.DatabaseTypeName columnType) []).1 |}.

(** [if !strings.Contains(strings.Join(modelImports, ","), imp) { append }] *)
Definition addImport (imp : string) (modelImports : list string) : list string :=
  if negb (Contains (Join modelImports ",") imp)
  then modelImports ++ [imp] else modelImports.

Definition needsTime (databaseTypeName : string) : bool :=
  oneOf databaseTypeName ["datetime"; "timestamp"; "date"; "time"].

Definition needsJSON (databaseTypeName : string) : bool :=
  oneOf databaseTypeName ["json"].

Definition importStep (modelImports : list string)
    (columnType : Gorm.ColumnType) : list string :=
  (switchTypeName (Gorm.DatabaseTypeName columnType) modelImports).2.

(** The import lists the loop can hold. *)
Definition importStates : list (list string) :=
  [ []; ["time"]; ["encoding/json"];
    ["time"; "encoding/json"]; ["encoding/json"; "time"] ].

(** The number of columns of a database type. *)
Definition countType (name : string) (columnTypes : list Gorm.ColumnType) : nat :=
  length (filter (fun ct => String.eqb (Gorm.DatabaseTypeName ct) name) columnTypes).

(** The file [generateModel] writes to. *)
Definition modelPath (destPath tableName : string)
    (columnTypes : list Gorm.ColumnType) : string :=
  destPath +:+ "/" +:+ TableName (tableOf tableName columnTypes) +:+ ".go".

(** ** The configuration after lines 72-90 *)

Definition orEnv (e : gmap string string) (flag key : string) : string :=
  if String.eqb flag "" then Getenv e key else flag.

Definition substituted (e : gmap string string) (flags : Flags) : Flags :=
  {| dest := dest flags; env := env flags;
     dbuser := orEnv e (dbuser flags) "DB_USER";
     dbpassword := orEnv e (dbpassword flags) "DB_PASSWORD";
     dbhost := orEnv e (dbhost flags) "DB_HOST";
     dbport := orEnv e (dbport flags) "DB_PORT";
     dbname := orEnv e (dbname flags) "DB_NAME";
     tables := orEnv e (tables flags) "TABLES" |}.

(** A required field is empty. *)
Definition missingRequired (flags : Flags) : Prop :=
  dbuser flags = "" \/ dbpassword flags = "" \/ dbname flags = "" \/
  tables flags = "".

(** The connection string of line 96. *)
Definition dsnOf (flags : Flags) : string :=
  dbuser flags +:+ ":" +:+ dbpassword flags +:+ "@tcp(" +:+ dbhost flags +:+
  ":" +:+ dbport flags +:+ ")/" +:+ dbname flags.

(** An attempt to connect to the database. *)
Definition opensConnection (e : event) : Prop := exists dsn, e = EvOpen dsn.

(** ** Concrete tables, servers and surroundings *)

Definition usersColumns : list Gorm.ColumnType :=
  [ Gorm.Build_ColumnType "id" "int";
    Gorm.Build_ColumnType "email" "varchar";
    Gorm.Build_ColumnType "created_at" "datetime" ].

Definition usersTable : Table :=
  {| TableName := "User";
     DBTableName := "users";
     Columns :=
       [ {| Name := "Id"; GormName := "id"; Type_ := "int" |};
         {| Name := "Email"; GormName := "email"; Type_ := "string" |};
         {| Name := "CreatedAt"; GormName := "created_at"; Type_ := "time.Time" |} ];
     ModelImports := ["time"] |}.

(** The file generated for [users], line by line. *)
Definition usersFile : string :=
  Join
    [ "package models";
      "";
      "";
      "import (";
      "";
      tab +:+ dquote +:+ "time" +:+ dquote;
      "";
      ")";
      "    ";
      "";
      "";
      "type User struct {";
      "    Id int `gorm:" +:+ dquote +:+ "column:id" +:+ dquote +:+ "`";
      "    Email string `gorm:" +:+ dquote +:+ "column:email" +:+ dquote +:+ "`";
      "    CreatedAt time.Time `gorm:" +:+ dquote +:+ "column:created_at" +:+
        dquote +:+ "`";
      "}";
      "";
      "func (User) TableName() string {";
      "    return " +:+ dquote +:+ "users" +:+ dquote;
      "}";
      "" ]
    nl.

Definition usersDB : Gorm.DB :=
  {| Gorm.ColumnTypes := fun tableName =>
       if String.eqb tableName "users" then Ok usersColumns
       else Err "table not found" |}.

(** A server with more tables, where [users] has the same columns. *)
Definition shopDB : Gorm.DB :=
  {| Gorm.ColumnTypes := fun tableName =>
       if String.eqb tableName "users" then Ok usersColumns
       else if String.eqb tableName "order_items"
       then Ok [Gorm.Build_ColumnType "metadata" "json"]
       else Err "table not found" |}.

(** No variable set, no file, no [.env] file, a server that accepts every
    connection, and a file system that accepts every write. *)
Definition quietWorld : World :=
  {| environ := ∅;
     files := ∅;
     statOk := fun _ => false;
     dotenvRead := fun _ => Err "no such file";
     mysqlOpen := fun _ => Ok usersDB;
     createErr := fun _ => None;
     writeErr := fun _ => None |}.

Definition busyWorld : World :=
  {| environ := {[ "DB_USER" := "root"; "TABLES" := "users,order_items" ]};
     files := {[ "./User.go" := "package old" ]};
     statOk := fun _ => true;
     dotenvRead := fun _ => Ok ∅;
     mysqlOpen := fun _ => Ok shopDB;
     createErr := fun _ => None;
     writeErr := fun _ => None |}.

(** Scenario 3: no [-tables] flag (and no [TABLES] variable in
    [quietWorld]). *)
Definition scenario3Flags : Flags :=
  {| dest := "."; env := ""; dbuser := "root"; dbpassword := "secret";
     dbhost := "localhost"; dbport := "3306"; dbname := "shop"; tables := "" |}.

(** The four required fields given, host and port left empty. *)
Definition noHostFlags : Flags :=
  {| dest := "."; env := ""; dbuser := "root"; dbpassword := "secret";
     dbhost := ""; dbport := ""; dbname := "shop"; tables := "users" |}.

(** Three [json] and two [datetime] columns. *)
Definition jsonAndDatetimeColumns : list Gorm.ColumnType :=
  [ Gorm.Build_ColumnType "payload" "json";
    Gorm.Build_ColumnType "created_at" "datetime";
    Gorm.Build_ColumnType "settings" "json";
    Gorm.Build_ColumnType "updated_at" "datetime";
    Gorm.Build_ColumnType "metadata" "json" ].

(** ** More vocabulary: identifiers *)




(** ** More vocabulary: the generated struct *)

(** The Go types the switch of lines 119-148 assigns. *)
Definition goTypeNames : list string :=
  ["time.Time"; "int"; "float64"; "string"; "[]byte"; "[]uint8"; "bool";
   "json.RawMessage"].

(** ** More vocabulary: the rendered file *)

(** The line of a field in the struct. *)
Definition fieldLine (c : Column) : string :=
  "    " +:+ Name c +:+ " " +:+ Type_ c +:+ " `gorm:" +:+ dquote +:+
  "column:" +:+ GormName c +:+ dquote +:+ "`".

(** The line of an import in the import block. *)
Definition importLine (imp : string) : string :=
  tab +:+ dquote +:+ imp +:+ dquote.

(** The body of the [TableName] method. *)
Definition accessorLine (t : Table) : string :=
  "    return " +:+ dquote +:+ DBTableName t +:+ dquote.

(** ** More vocabulary: configuration and runs *)

(** The variables the [.env] stage of lines 64-70 offers: those of the file
    when it is there and readable, none when [os.Stat] fails, and no answer
    when the file is there and cannot be loaded. *)
Definition envFileVars (flags : Flags) (w : World) : option (gmap string string) :=
  if statOk w (env flags) then
    match dotenvRead w (env flags) with
    | Ok envMap => Some envMap
    | Err _ => None
    end
  else Some ∅.

(** A flag that is given wins over the process environment, which wins
    over the [.env] file; the value is empty when none has it. *)
Definition precedence (flag key : string)
    (processEnv fileVars : gmap string string) : string :=
  if String.eqb flag "" then
    match processEnv !! key with
    | Some v => v
    | None => default "" (fileVars !! key)
    end
  else flag.


Definition isOpen (e : event) : bool :=
  match e with EvOpen _ => true | _ => false end.

(** The events that use the database handle or the generated files. *)
Definition usesDatabase (e : event) : bool :=
  match e with
  | EvColumnTypes _ | EvCreate _ | EvWrite _ _ => true
  | _ => false
  end.

(** The tables whose columns a run has asked for, in order. *)
Fixpoint queried (tr : list event) : list string :=
  match tr with
  | [] => []
  | EvColumnTypes tableName :: rest => tableName :: queried rest
  | _ :: rest => queried rest
  end.


(** The loop of lines 103-105. *)
Definition generateAll (db : Gorm.DB) (destPath : string)
    (tableNames : list string) : Proc unit :=
  forEach tableNames (fun tableName => generateModel db tableName destPath).


(** A [.env] file that sets the user and the table list. *)
Definition dotenvWorld : World :=
  {| environ := {[ "DB_USER" := "admin" ]};
     files := ∅;
     statOk := fun _ => true;
     dotenvRead := fun _ =>
       Ok {[ "DB_USER" := "fromfile"; "TABLES" := "users"; "DB_NAME" := "shop" ]};
     mysqlOpen := fun _ => Ok usersDB;
     createErr := fun _ => None;
     writeErr := fun _ => None |}.

Definition dotenvFlags : Flags :=
  {| dest := "out"; env := ".env"; dbuser := ""; dbpassword := "secret";
     dbhost := ""; dbport := ""; dbname := "inventory"; tables := "" |}.

(** Two tables with the same singular name. *)
Definition userTablesDB : Gorm.DB :=
  {| Gorm.ColumnTypes := fun tableName =>
       if String.eqb tableName "users" then Ok usersColumns
       else if String.eqb tableName "user"
       then Ok [Gorm.Build_ColumnType "id" "bigint"]
       else Err "table not found" |}.

(** A [.env] file that is there and cannot be parsed. *)
Definition brokenEnvWorld : World :=
  {| environ := ∅;
     files := ∅;
     statOk := fun _ => true;
     dotenvRead := fun _ => Err "unexpected character";
     mysqlOpen := fun _ => Ok usersDB;
     createErr := fun _ => None;
     writeErr := fun _ => None |}.

(** A server that refuses every connection. *)
Definition offlineWorld : World :=
  {| environ := ∅;
     files := ∅;
     statOk := fun _ => false;
     dotenvRead := fun _ => Err "no such file";
     mysqlOpen := fun _ => Err "connection refused";
     createErr := fun _ => None;
     writeErr := fun _ => None |}.

(** ** Tactics *)

Create HintDb chars.

(** Case analysis on the 256 characters. *)
Ltac each_char c :=
  destruct c as [[] [] [] [] [] [] [] []]; vm_compute; try reflexivity;
  try discriminate; try tauto.

(** Case analysis on the [case]s of the [switch] over [name]. *)
Ltac case_oneOf name :=
  repeat match goal with
         | |- context [if oneOf name ?l then _ else _] => destruct (oneOf name l)
         end.

(** Case analysis on a membership in an explicit list. *)
Ltac each_state H :=
  simpl in H;
  repeat match type of H with
         | _ \/ _ => destruct H as [H | H]
         end; [subst .. | destruct H].

Ltac run_simpl := unfold exitStatus, trace, final, result_of in *; simpl in *.
(** * Part III: properties *)

(** ** Characters *)

Lemma ToTitle_underscore (c : ascii) :
  GoUnicode.ToTitle c = "_"%char -> c = "_"%char.
Proof. each_char c. Qed.

Lemma ToTitle_idem (c : ascii) :
  GoUnicode.ToTitle (GoUnicode.ToTitle c) = GoUnicode.ToTitle c.
Proof. each_char c. Qed.

Lemma alnum_not_separator (c : ascii) : alnum c = true -> isSeparator c = false.
Proof. each_char c. Qed.

Lemma alnum_ToTitle (c : ascii) :
  alnum c = true -> alnum (GoUnicode.ToTitle c) = true.
Proof. each_char c. Qed.

#[local] Hint Resolve alnum_not_separator alnum_ToTitle : chars.

Lemma snakeChar_alnum (c : ascii) :
  Spec.snakeChar c = true -> c <> "_"%char -> alnum c = true.
Proof. each_char c. Qed.

Lemma append_cons (c : ascii) (a b : string) :
  String c a +:+ b = String c (a +:+ b).
Proof. reflexivity. Qed.

Lemma chars_app (a b : string) : chars (a +:+ b) = chars a ++ chars b.
Proof.
  induction a as [|c a IH]; [reflexivity |].
  rewrite append_cons. simpl. now rewrite IH.
Qed.

Lemma append_empty_r (s : string) : s +:+ "" = s.
Proof.
  induction s as [|c s IH]; [reflexivity |].
  now rewrite append_cons, IH.
Qed.

(** ** [strings.Split], [strings.Join] and [strings.Title] *)

Lemma Split_not_nil (s : string) (sep : ascii) : Split s sep <> [].
Proof.
  destruct s as [|c s]; simpl; [discriminate |].
  destruct (Ascii.eqb c sep); [discriminate |].
  destruct (Split s sep); discriminate.
Qed.

(** The parts hold the characters of the string other than the separator,
    in order. *)
Lemma Split_chars (s : string) (sep : ascii) :
  concat (map chars (Split s sep)) =
  filter (fun c => negb (Ascii.eqb c sep)) (chars s).
Proof.
  induction s as [|c s IH]; simpl; [reflexivity |].
  destruct (Ascii.eqb c sep) eqn:E; simpl.
  - exact IH.
  - destruct (Split s sep) as [|part parts] eqn:S.
    + now destruct (Split_not_nil s sep).
    + simpl in *. now rewrite IH.
Qed.

Lemma Split_part_chars (s : string) (sep : ascii) (part : string) (c : ascii) :
  In part (Split s sep) -> In c (chars part) -> In c (chars s) /\ c <> sep.
Proof.
  intros Hpart Hc.
  assert (H : In c (concat (map chars (Split s sep)))).
  { apply in_concat. exists (chars part). split; [now apply in_map | exact Hc]. }
  rewrite Split_chars in H. apply filter_In in H as [Hin Hne].
  split; [exact Hin |]. intros ->. now rewrite Ascii.eqb_refl in Hne.
Qed.

Lemma Split_without_sep (s : string) (sep : ascii) :
  ~ In sep (chars s) -> Split s sep = [s].
Proof.
  induction s as [|c s IH]; simpl; intros H; [reflexivity |].
  destruct (Ascii.eqb_spec c sep) as [->|Hne]; [tauto |].
  rewrite IH by tauto. reflexivity.
Qed.

Lemma Join_no_sep (parts : list string) :
  Join parts "" = fold_right String.append "" parts.
Proof.
  induction parts as [|e rest IH]; [reflexivity |].
  cbn [Join fold_right]. destruct rest as [|e' rest].
  - now rewrite append_empty_r.
  - rewrite <- IH. reflexivity.
Qed.

Lemma chars_concat (parts : list string) :
  chars (fold_right String.append "" parts) = concat (map chars parts).
Proof.
  induction parts as [|e rest IH]; simpl; [reflexivity |].
  now rewrite chars_app, IH.
Qed.

Lemma Title_from_length (s : string) (prev : ascii) :
  String.length (Title_from prev s) = String.length s.
Proof.
  revert prev. induction s as [|c s IH]; intros prev; simpl;
    [reflexivity | now rewrite IH].
Qed.

Lemma Title_from_chars (s : string) (prev c : ascii) :
  In c (chars (Title_from prev s)) ->
  exists c0, In c0 (chars s) /\ (c = c0 \/ c = GoUnicode.ToTitle c0).
Proof.
  revert prev. induction s as [|a s IH]; intros prev; simpl; [tauto |].
  intros [H | H].
  - exists a. split; [now left |].
    destruct (isSeparator prev); [now right | now left].
  - destruct (IH _ H) as (c0 & Hin & Hc). exists c0. split; [now right | exact Hc].
Qed.

(** Without a separator inside, [Title] changes the first character only. *)
Lemma Title_from_no_separator (s : string) (prev : ascii) :
  isSeparator prev = false ->
  forallb alnum (chars s) = true ->
  Title_from prev s = s.
Proof.
  revert prev. induction s as [|c s IH]; intros prev Hprev Hs; simpl;
    [reflexivity |].
  simpl in Hs. apply andb_prop in Hs as [Hc Hs].
  rewrite Hprev, IH; auto with chars.
Qed.

Lemma Title_alnum (s : string) :
  forallb alnum (chars s) = true -> Title s = Spec.upperFirst s.
Proof.
  destruct s as [|c s]; [reflexivity |]. simpl. intros H.
  apply andb_prop in H as [Hc Hs]. unfold Title. simpl.
  rewrite Title_from_no_separator; auto with chars.
Qed.

(** ** [camelCase] *)

Lemma camelCase_unfold (s : string) :
  camelCase s = fold_right String.append "" (map Title (Split s "_")).
Proof. unfold camelCase. apply Join_no_sep. Qed.

Lemma camelCase_underscoreFree (s : string) : underscoreFree (camelCase s).
Proof.
  unfold underscoreFree. rewrite camelCase_unfold, chars_concat, map_map.
  apply Forall_forall. intros c Hc ->.
  apply in_concat in Hc as (l & Hl & Hc).
  apply in_map_iff in Hl as (part & <- & Hpart).
  apply Title_from_chars in Hc as (c0 & Hc0 & Hc).
  assert (c0 = "_"%char) as ->.
  { destruct Hc as [<- | Hc]; [reflexivity | now apply ToTitle_underscore]. }
  now destruct (Split_part_chars _ _ _ _ Hpart Hc0).
Qed.

Lemma length_chars (s : string) : String.length s = length (chars s).
Proof. induction s as [|c s IH]; simpl; [reflexivity | now rewrite IH]. Qed.

(** The transform keeps every character that is not an underscore. *)
Lemma camelCase_length (s : string) :
  String.length (camelCase s) =
  length (filter (fun c => negb (Ascii.eqb c "_")) (chars s)).
Proof.
  rewrite <- Split_chars, camelCase_unfold, length_chars, chars_concat.
  induction (Split s "_") as [|part parts IH]; [reflexivity |].
  cbn [map concat]. rewrite !length_app, IH. f_equal.
  rewrite <- !length_chars. apply Title_from_length.
Qed.

Lemma camelCase_empty_iff (s : string) :
  camelCase s = "" <-> Forall (fun c => c = "_"%char) (chars s).
Proof.
  split.
  - intros H. pose proof (camelCase_length s) as L. rewrite H in L. simpl in L.
    symmetry in L. apply length_zero_iff_nil in L.
    apply Forall_forall. intros c Hc.
    destruct (Ascii.eqb_spec c "_") as [E | E]; [exact E |].
    assert (Hin : In c (filter (fun c => negb (Ascii.eqb c "_")) (chars s))).
    { apply filter_In. split; [exact Hc |].
      destruct (Ascii.eqb_spec c "_"); [contradiction | reflexivity]. }
    rewrite L in Hin. destruct Hin.
  - intros H.
    assert (E : filter (fun c => negb (Ascii.eqb c "_")) (chars s) = []).
    { induction H as [|c l Hc Hl IH]; [reflexivity |]. subst c. exact IH. }
    pose proof (camelCase_length s) as L. rewrite E in L. simpl in L.
    destruct (camelCase s); [reflexivity | discriminate].
Qed.

(** ** The type mapper *)

Lemma oneOf_In (s : string) (cases : list string) :
  oneOf s cases = true <-> In s cases.
Proof.
  unfold oneOf. rewrite existsb_exists. split.
  - intros (x & Hx & Heq). apply String.eqb_eq in Heq. now subst.
  - intros H. exists s. split; [assumption | apply String.eqb_refl].
Qed.

(** The model type does not depend on the imports collected so far. *)
Lemma switchTypeName_type (name : string) (imports : list string) :
  (switchTypeName name imports).1 = (switchTypeName name []).1.
Proof. unfold switchTypeName. case_oneOf name; reflexivity. Qed.

(** The switch goes through the rows of the table in their order. *)
Lemma switchTypeName_lookup (name : string) (imports : list string) :
  (switchTypeName name imports).1 =
  Spec.goTypeName
    (default Spec.StringType (Spec.lookupType Spec.mappingTable name)).
Proof.
  unfold switchTypeName, Spec.mappingTable, oneOf. cbn [Spec.lookupType].
  repeat match goal with
         | |- context [if existsb (String.eqb name) ?l then _ else _] =>
             destruct (existsb (String.eqb name) l)
         end; reflexivity.
Qed.

Lemma lookupType_row (names : list string) (g : Spec.GeneratedType)
    (name : string) :
  In (names, g) Spec.mappingTable -> In name names ->
  Spec.lookupType Spec.mappingTable name = Some g.
Proof.
  intros Hrow Hname. each_state Hrow;
    injection Hrow as <- <-; each_state Hname; reflexivity.
Qed.

Lemma lookupType_None (table : list (list string * Spec.GeneratedType))
    (name : string) :
  (forall names g, In (names, g) table -> ~ In name names) ->
  Spec.lookupType table name = None.
Proof.
  induction table as [|[names g] rows IH]; intros H; [reflexivity |].
  cbn [Spec.lookupType]. fold (oneOf name names).
  destruct (oneOf name names) eqn:E.
  - apply oneOf_In in E. destruct (H names g (or_introl eq_refl) E).
  - apply IH. intros names' g' Hin. apply (H names' g'). now right.
Qed.

(** C1, as amended: the type mapper compares the reported type name with
    the names of the mapping table exactly, letter case included.  A name
    that is literally one of the names of a row gets the documented type of
    that row; a name that is literally none of them, an upper- or mixed-case
    spelling of a supported name included, gets [string]. *)
Theorem type_mapper_exact_match (name : string) (imports : list string) :
  (forall names g,
     In (names, g) Spec.mappingTable -> In name names ->
     (switchTypeName name imports).1 = Spec.goTypeName g) /\
  ((forall names g, In (names, g) Spec.mappingTable -> ~ In name names) ->
   (switchTypeName name imports).1 = "string").
Proof.
  split.
  - intros names g Hrow Hname.
    now rewrite switchTypeName_lookup, (lookupType_row names g).
  - intros H. now rewrite switchTypeName_lookup, lookupType_None.
Qed.

Lemma type_mapper_exact_match_witness :
  (switchTypeName "bigint" ["time"]).1 = "int" /\
  (switchTypeName "Int" []).1 = "string".
Proof.
  split.
  - apply (proj1 (type_mapper_exact_match "bigint" ["time"])
                 ["tinyint"; "smallint"; "mediumint"; "int"; "integer"; "bigint"]
                 Spec.IntType); simpl; tauto.
  - apply (proj2 (type_mapper_exact_match "Int" [])).
    intros names g Hrow Hname. each_state Hrow;
      injection Hrow as <- <-; simpl in Hname; intuition discriminate.
Defined.

(** C1, as stated, fails: the catalog name [INT] is documented to map to
    [int] like [int] does, and the switch sends it to the fallback. *)
Lemma type_mapper_case_sensitive :
  (switchTypeName "INT" []).1 = "string" /\
  Spec.goTypeName (Spec.documentedType "INT") = "int" /\
  (switchTypeName "INT" []).1 <> Spec.goTypeName (Spec.documentedType "INT").
Proof. repeat split; try reflexivity. vm_compute. discriminate. Qed.

(** ** The loop of [generateModel] *)

Lemma switchTypeName_imports (name : string) (imports : list string) :
  (switchTypeName name imports).2 =
  if needsTime name then addImport "time" imports
  else if needsJSON name then addImport "encoding/json" imports
  else imports.
Proof.
  unfold needsTime, needsJSON.
  destruct (oneOf name ["json"]) eqn:J.
  - apply oneOf_In in J. simpl in J. destruct J as [<- | []]. reflexivity.
  - unfold switchTypeName. rewrite J. case_oneOf name; reflexivity.
Qed.

Lemma fold_columnStep (columnTypes : list Gorm.ColumnType)
    (columns : list Column) (imports : list string) :
  fold_left columnStep columnTypes (columns, imports) =
  (columns ++ map columnOf columnTypes, fold_left importStep columnTypes imports).
Proof.
  revert columns imports.
  induction columnTypes as [|ct cts IH]; intros columns imports;
    cbn [fold_left map].
  - now rewrite app_nil_r.
  - assert (E : columnStep (columns, imports) ct =
                (columns ++ [columnOf ct], importStep imports ct)).
    { unfold columnStep, importStep, columnOf.
      rewrite <- (switchTypeName_type _ imports).
      now destruct (switchTypeName _ imports). }
    rewrite E, IH, <- app_assoc. reflexivity.
Qed.

Lemma tableOf_fields (tableName : string) (columnTypes : list Gorm.ColumnType) :
  tableOf tableName columnTypes =
  {| TableName := camelCase (Inflection.Singular tableName);
     DBTableName := tableName;
     Columns := map columnOf columnTypes;
     ModelImports := fold_left importStep columnTypes [] |}.
Proof. unfold tableOf. rewrite fold_columnStep. reflexivity. Qed.

(** *** The import list *)

Lemma importStep_states (imports : list string) (ct : Gorm.ColumnType) :
  In imports importStates -> In (importStep imports ct) importStates.
Proof.
  intros H. unfold importStep. rewrite switchTypeName_imports.
  destruct (needsTime (Gorm.DatabaseTypeName ct)),
    (needsJSON (Gorm.DatabaseTypeName ct)); each_state H; vm_compute; tauto.
Qed.

Lemma importStep_time (imports : list string) (ct : Gorm.ColumnType) :
  In imports importStates ->
  In "time" (importStep imports ct) <->
  In "time" imports \/ needsTime (Gorm.DatabaseTypeName ct) = true.
Proof.
  intros H. unfold importStep. rewrite switchTypeName_imports.
  destruct (needsTime (Gorm.DatabaseTypeName ct)),
    (needsJSON (Gorm.DatabaseTypeName ct)); each_state H; vm_compute;
    intuition discriminate.
Qed.

Lemma needsTime_not_JSON (name : string) :
  needsTime name = true -> needsJSON name = false.
Proof.
  intros H. apply oneOf_In in H. simpl in H.
  repeat destruct H as [<- | H]; try reflexivity. destruct H.
Qed.

Lemma importStep_json (imports : list string) (ct : Gorm.ColumnType) :
  In imports importStates ->
  In "encoding/json" (importStep imports ct) <->
  In "encoding/json" imports \/ needsJSON (Gorm.DatabaseTypeName ct) = true.
Proof.
  intros H. unfold importStep. rewrite switchTypeName_imports.
  destruct (needsTime (Gorm.DatabaseTypeName ct)) eqn:T.
  - rewrite (needsTime_not_JSON _ T).
    each_state H; vm_compute; intuition discriminate.
  - destruct (needsJSON (Gorm.DatabaseTypeName ct)); each_state H; vm_compute; intuition discriminate.
Qed.

Lemma fold_importStep (columnTypes : list Gorm.ColumnType) (imports : list string) :
  In imports importStates ->
  let final := fold_left importStep columnTypes imports in
  In final importStates /\
  (In "time" final <->
   In "time" imports \/
   Exists (fun ct => needsTime (Gorm.DatabaseTypeName ct) = true) columnTypes) /\
  (In "encoding/json" final <->
   In "encoding/json" imports \/
   Exists (fun ct => needsJSON (Gorm.DatabaseTypeName ct) = true) columnTypes).
Proof.
  revert imports. induction columnTypes as [|ct cts IH]; intros imports H; simpl.
  - rewrite !Exists_nil. tauto.
  - destruct (IH _ (importStep_states _ ct H)) as (S & Ht & Hj).
    split; [exact S |].
    rewrite Ht, Hj, importStep_time, importStep_json, !Exists_cons by exact H.
    tauto.
Qed.

Lemma importStates_NoDup (imports : list string) :
  In imports importStates -> NoDup imports.
Proof.
  intros H. each_state H; repeat constructor; simpl; intuition discriminate.
Qed.

Lemma importStates_incl (imports : list string) :
  In imports importStates -> incl imports ["time"; "encoding/json"].
Proof. intros H. each_state H; intros x; simpl; tauto. Qed.

Lemma tableOf_imports_state (tableName : string) (cts : list Gorm.ColumnType) :
  In (ModelImports (tableOf tableName cts)) importStates.
Proof.
  rewrite tableOf_fields. simpl.
  apply (fold_importStep cts []). simpl. tauto.
Qed.

(** ** The identifier transform on snake_case names *)

Lemma snake_parts_alnum (s part : string) :
  Spec.isSnakeCase s = true -> In part (Split s "_") ->
  forallb alnum (chars part) = true.
Proof.
  intros Hs Hpart. apply forallb_forall. intros c Hc.
  destruct (Split_part_chars _ _ _ _ Hpart Hc) as [Hin Hne].
  apply snakeChar_alnum; [| exact Hne].
  unfold Spec.isSnakeCase in Hs. rewrite forallb_forall in Hs. now apply Hs.
Qed.

Lemma upperFirst_alnum (part : string) :
  forallb alnum (chars part) = true ->
  forallb alnum (chars (Spec.upperFirst part)) = true.
Proof.
  destruct part as [|c part]; [reflexivity |]. simpl. intros H.
  apply andb_prop in H as [Hc Hp]. now rewrite alnum_ToTitle, Hp.
Qed.

Lemma upperFirst_concat (parts : list string) :
  let joined := fold_right String.append "" (map Spec.upperFirst parts) in
  Spec.upperFirst joined = joined.
Proof.
  induction parts as [|part parts IH]; [reflexivity |].
  cbn [map fold_right]. destruct part as [|c part].
  - exact IH.
  - cbn [Spec.upperFirst]. rewrite append_cons. cbn [Spec.upperFirst].
    now rewrite ToTitle_idem.
Qed.

Lemma pascalCase_alnum (s : string) :
  Spec.isSnakeCase s = true -> forallb alnum (chars (Spec.pascalCase s)) = true.
Proof.
  intros Hs. unfold Spec.pascalCase. rewrite chars_concat, map_map.
  apply forallb_forall. intros c Hc.
  apply in_concat in Hc as (l & Hl & Hc).
  apply in_map_iff in Hl as (part & <- & Hpart).
  pose proof (upperFirst_alnum part (snake_parts_alnum _ _ Hs Hpart)) as H.
  rewrite forallb_forall in H. now apply H.
Qed.

Lemma camelCase_pascalCase (s : string) :
  Spec.isSnakeCase s = true -> camelCase s = Spec.pascalCase s.
Proof.
  intros Hs. rewrite camelCase_unfold. unfold Spec.pascalCase. f_equal.
  apply map_ext_in. intros part Hpart.
  apply Title_alnum. now apply snake_parts_alnum with s.
Qed.

(** C2: on a snake_case identifier [camelCase] is the transform of the
    specification (split on ['_'], first letter of each segment in title
    case, no separator), so that [order_item_id] gives [OrderItemId] and
    [user_id] gives [UserId], and a second application changes nothing. *)
Theorem camelCase_snake_case (s : string) (H : Spec.isSnakeCase s = true) :
  (camelCase s = Spec.pascalCase s /\
   camelCase (camelCase s) = camelCase s) /\
  camelCase "order_item_id" = "OrderItemId" /\
  camelCase "user_id" = "UserId".
Proof.
  split; [split | split; reflexivity].
  - now apply camelCase_pascalCase.
  - pose proof (camelCase_underscoreFree s) as U.
    unfold camelCase at 1. rewrite Split_without_sep.
    + cbn [map Join]. rewrite camelCase_pascalCase by exact H.
      rewrite Title_alnum by now apply pascalCase_alnum.
      apply upperFirst_concat.
    + unfold underscoreFree in U. rewrite Forall_forall in U.
      intros Hin. now apply (U _ Hin).
Qed.

Lemma camelCase_snake_case_witness :
  (camelCase "created_at" = Spec.pascalCase "created_at" /\
   camelCase (camelCase "created_at") = camelCase "created_at") /\
  camelCase "order_item_id" = "OrderItemId" /\
  camelCase "user_id" = "UserId".
Proof. apply (camelCase_snake_case "created_at"). reflexivity. Defined.

(** C5, as amended: a table name whose singular form has a character other
    than ['_'] gets a generated type name that is not empty. *)
Theorem type_name_not_empty (tableName : string)
    (columnTypes : list Gorm.ColumnType)
    (H : exists c, In c (chars (Inflection.Singular tableName)) /\ c <> "_"%char) :
  TableName (tableOf tableName columnTypes) <> "".
Proof.
  rewrite tableOf_fields. cbn [TableName]. rewrite camelCase_empty_iff.
  intros F. destruct H as (c & Hin & Hne). rewrite Forall_forall in F.
  exact (Hne (F c Hin)).
Qed.

Lemma type_name_not_empty_witness :
  TableName (tableOf "users" [Gorm.Build_ColumnType "id" "int"]) <> "".
Proof.
  apply (type_name_not_empty "users" [Gorm.Build_ColumnType "id" "int"]).
  exists "u"%char. split; [vm_compute; tauto | discriminate].
Defined.

(** C5, as stated, fails: the table name [_] is not empty, its singular
    form is [_] again, and the transform drops the underscore. *)
Lemma type_name_empty_for_underscore :
  "_" <> "" /\
  Inflection.Singular "_" = "_" /\
  TableName (tableOf "_" [Gorm.Build_ColumnType "id" "int"]) = "".
Proof. repeat split. discriminate. Qed.

(** The names the amended C5 leaves out all get the empty type name. *)
Lemma type_name_empty_iff (tableName : string)
    (columnTypes : list Gorm.ColumnType) :
  TableName (tableOf tableName columnTypes) = "" <->
  Forall (fun c => c = "_"%char) (chars (Inflection.Singular tableName)).
Proof. rewrite tableOf_fields. apply camelCase_empty_iff. Qed.


Lemma countType_Exists (name : string) (columnTypes : list Gorm.ColumnType) :
  0 < countType name columnTypes ->
  Exists (fun ct => Gorm.DatabaseTypeName ct = name) columnTypes.
Proof.
  unfold countType. intros H.
  destruct (filter _ columnTypes) as [|ct l] eqn:E; [simpl in H; lia |].
  assert (Hin : In ct (filter (fun ct => String.eqb (Gorm.DatabaseTypeName ct) name)
                              columnTypes)) by (rewrite E; now left).
  apply filter_In in Hin as [Hin Heq]. apply String.eqb_eq in Heq.
  apply Exists_exists. now exists ct.
Qed.

(** C3: an import occurs at most once in the import list of a table,
    however many columns need it; with three [json] and two [datetime]
    columns the list has exactly the two entries [time] and
    [encoding/json]. *)
Theorem imports_deduplicated (tableName : string)
    (columnTypes : list Gorm.ColumnType) :
  (forall imp,
     count_occ string_dec (ModelImports (tableOf tableName columnTypes)) imp <= 1) /\
  (countType "json" columnTypes = 3 ->
   countType "datetime" columnTypes = 2 ->
   length (ModelImports (tableOf tableName columnTypes)) = 2 /\
   In "time" (ModelImports (tableOf tableName columnTypes)) /\
   In "encoding/json" (ModelImports (tableOf tableName columnTypes))).
Proof.
  pose proof (tableOf_imports_state tableName columnTypes) as S.
  split.
  - intros imp. revert imp. apply NoDup_count_occ. now apply importStates_NoDup.
  - intros Hj Ht.
    assert (Ej : Exists (fun ct => needsJSON (Gorm.DatabaseTypeName ct) = true)
                        columnTypes).
    { eapply Exists_impl; [| apply (countType_Exists "json"); lia].
      intros ct ->. reflexivity. }
    assert (Et : Exists (fun ct => needsTime (Gorm.DatabaseTypeName ct) = true)
                        columnTypes).
    { eapply Exists_impl; [| apply (countType_Exists "datetime"); lia].
      intros ct ->. reflexivity. }
    rewrite tableOf_fields in *. cbn [ModelImports] in *.
    destruct (fold_importStep columnTypes []) as (_ & Htime & Hjson);
      [simpl; tauto |].
    cbv zeta in Htime, Hjson.
    assert (It : In "time" (fold_left importStep columnTypes []))
      by (apply Htime; now right).
    assert (Ij : In "encoding/json" (fold_left importStep columnTypes []))
      by (apply Hjson; now right).
    repeat split; try assumption.
    each_state S; rewrite <- ?S in *; try reflexivity;
      simpl in It, Ij; intuition discriminate.
Qed.

Lemma imports_deduplicated_witness :
  length (ModelImports (tableOf "events" jsonAndDatetimeColumns)) = 2 /\
  In "time" (ModelImports (tableOf "events" jsonAndDatetimeColumns)) /\
  In "encoding/json" (ModelImports (tableOf "events" jsonAndDatetimeColumns)).
Proof.
  apply (proj2 (imports_deduplicated "events" jsonAndDatetimeColumns));
    reflexivity.
Defined.

(** C8: whatever the table and its columns, the import list is made of
    [time] and [encoding/json] only, each at most once. *)
Theorem imports_within_time_and_json (tableName : string)
    (columnTypes : list Gorm.ColumnType) :
  NoDup (ModelImports (tableOf tableName columnTypes)) /\
  incl (ModelImports (tableOf tableName columnTypes)) ["time"; "encoding/json"].
Proof.
  pose proof (tableOf_imports_state tableName columnTypes) as S.
  split; [now apply importStates_NoDup | now apply importStates_incl].
Qed.

(** ** Runs of the process *)

Section Bind.
Context {A B : Type} (m : Proc A) (k : A -> Proc B) (w : World).

Lemma bind_run :
  (m ≫= k) w =
  match m w with
  | (tr, w1, Returned a) =>
      match k a w1 with
      | (tr2, w2, o) => (tr ++ tr2, w2, o)
      end
  | (tr, w1, Exited status) => (tr, w1, Exited status)
  end.
Proof. reflexivity. Qed.

(** A step that leaves no trace and no change hands its value on. *)
Lemma bind_silent (a : A) :
  m w = ([], w, Returned a) -> (m ≫= k) w = k a w.
Proof. intros H. rewrite bind_run, H. now destruct (k a w) as [[tr w2] o]. Qed.

End Bind.

Lemma orGetenv_run (flag key : string) (w : World) :
  orGetenv flag key w = ([], w, Returned (orEnv (environ w) flag key)).
Proof. unfold orGetenv, orEnv. now destruct (String.eqb flag ""). Qed.

Lemma substituteEnv_run (flags : Flags) (w : World) :
  substituteEnv flags w = ([], w, Returned (substituted (environ w) flags)).
Proof.
  unfold substituteEnv.
  repeat (erewrite bind_silent; [| apply orGetenv_run]).
  reflexivity.
Qed.

Lemma missingRequired_test (flags : Flags) :
  String.eqb (dbuser flags) "" || String.eqb (dbpassword flags) "" ||
  String.eqb (dbname flags) "" || String.eqb (tables flags) "" = true <->
  missingRequired flags.
Proof.
  unfold missingRequired. rewrite !orb_true_iff, !String.eqb_eq. tauto.
Qed.

Lemma requireFields_missing (flags : Flags) (w : World) :
  missingRequired flags ->
  requireFields flags w = ([EvFatal requiredMsg], w, Exited 1).
Proof.
  intros H. apply missingRequired_test in H. unfold requireFields.
  now rewrite H.
Qed.

Lemma requireFields_present (flags : Flags) (w : World) :
  ~ missingRequired flags -> requireFields flags w = ([], w, Returned tt).
Proof.
  intros H. unfold requireFields.
  destruct (_ || _) eqn:E; [| reflexivity].
  now apply missingRequired_test in E.
Qed.

Lemma missingRequired_dec (flags : Flags) :
  missingRequired flags \/ ~ missingRequired flags.
Proof.
  rewrite <- missingRequired_test.
  destruct (_ || _); [now left | right; discriminate].
Qed.

(** [main] after the [.env] file has been dealt with. *)
Lemma main_run (flags : Flags) (w : World) :
  main flags w =
  match loadEnvFile flags w with
  | (tr0, w1, Returned _) =>
      match requireFields (substituted (environ w1) flags) w1 with
      | (tr1, w2, Returned _) =>
          match connectAndGenerate (substituted (environ w1) flags) w2 with
          | (tr2, w3, o) => (tr0 ++ tr1 ++ tr2, w3, o)
          end
      | (tr1, w2, Exited status) => (tr0 ++ tr1, w2, Exited status)
      end
  | (tr0, w1, Exited status) => (tr0, w1, Exited status)
  end.
Proof.
  unfold main. rewrite bind_run.
  destruct (loadEnvFile flags w) as [[tr0 w1] [[]|status]]; [| reflexivity].
  rewrite (bind_silent _ _ _ _ (substituteEnv_run flags w1)), bind_run.
  destruct (requireFields _ w1) as [[tr1 w2] [[]|status]]; [| reflexivity].
  now destruct (connectAndGenerate _ w2) as [[tr2 w3] o].
Qed.

Lemma connectAndGenerate_opens (flags : Flags) (w : World) :
  exists rest, trace (connectAndGenerate flags w) = EvOpen (dsnOf flags) :: rest.
Proof.
  unfold connectAndGenerate. fold (dsnOf flags). rewrite bind_run.
  unfold gorm_Open at 1. destruct (mysqlOpen w (dsnOf flags)) as [db | err].
  - destruct (forEach _ _ w) as [[tr w2] o]. now exists tr.
  - now exists [EvFatal ("Failed to connect to database: " +:+ err)].
Qed.

Lemma loadEnvFile_trace (flags : Flags) (w : World) (e : event) :
  In e (trace (loadEnvFile flags w)) ->
  e = EvLoadEnv (env flags) \/ exists err, e = EvFatal ("Error loading .env file: " +:+ err).
Proof.
  unfold loadEnvFile. rewrite bind_run. unfold os_Stat at 1.
  destruct (statOk w (env flags)); [| intros []].
  rewrite bind_run. unfold godotenv_Load at 1.
  destruct (dotenvRead w (env flags)) as [envMap | err]; simpl.
  - intros [<- | []]. now left.
  - intros [<- | [<- | []]]; [now left | right; now exists err].
Qed.

Lemma loadEnvFile_no_connection (flags : Flags) (w : World) :
  Forall (fun e => ~ opensConnection e) (trace (loadEnvFile flags w)).
Proof.
  apply Forall_forall. intros e He [dsn ->].
  apply loadEnvFile_trace in He as [He | [err He]]; discriminate.
Qed.

Lemma main_missing (flags : Flags) (w w1 : World) (tr0 : list event) :
  loadEnvFile flags w = (tr0, w1, Returned tt) ->
  missingRequired (substituted (environ w1) flags) ->
  main flags w = (tr0 ++ [EvFatal requiredMsg], w1, Exited 1).
Proof.
  intros Henv Hmiss. rewrite main_run, Henv.
  now rewrite (requireFields_missing _ _ Hmiss).
Qed.

Lemma main_present (flags : Flags) (w w1 : World) (tr0 : list event) :
  loadEnvFile flags w = (tr0, w1, Returned tt) ->
  ~ missingRequired (substituted (environ w1) flags) ->
  exists rest,
    trace (main flags w) =
    tr0 ++ EvOpen (dsnOf (substituted (environ w1) flags)) :: rest.
Proof.
  intros Henv Hpres. rewrite main_run, Henv.
  rewrite (requireFields_present _ _ Hpres).
  destruct (connectAndGenerate_opens (substituted (environ w1) flags) w1)
    as [rest Hrest].
  destruct (connectAndGenerate _ w1) as [[tr2 w3] o]. run_simpl.
  exists rest. now subst tr2.
Qed.

(** C6: once the flags have been completed from the environment, the run
    ends at the required-field check, with the fatal message of that check
    and exit status 1, exactly when the user, the password, the database
    name or the table list is empty; when none of the four is, the run goes
    on to open the connection, whatever the host and the port are. *)
Theorem required_fields_validation (flags : Flags) (w w1 : World)
    (tr0 : list event)
    (Henv : loadEnvFile flags w = (tr0, w1, Returned tt)) :
  (main flags w = (tr0 ++ [EvFatal requiredMsg], w1, Exited 1) <->
   missingRequired (substituted (environ w1) flags)) /\
  (~ missingRequired (substituted (environ w1) flags) ->
   exists rest,
     trace (main flags w) =
     tr0 ++ EvOpen (dsnOf (substituted (environ w1) flags)) :: rest).
Proof.
  split; [split |].
  - intros Hrun.
    destruct (missingRequired_dec (substituted (environ w1) flags)) as [M | P];
      [exact M |].
    destruct (main_present _ _ _ _ Henv P) as [rest Hrest].
    rewrite Hrun in Hrest. run_simpl.
    apply app_inv_head in Hrest. discriminate.
  - now apply main_missing.
  - now apply main_present.
Qed.

(** C7: when a required field is missing after the substitution, the
    process ends with the fatal message of the check and exit status 1, and
    its run holds no attempt to connect; a run that holds such an attempt
    has passed the check before. *)
Theorem validation_precedes_connection (flags : Flags) (w : World) :
  (forall tr0 w1,
     loadEnvFile flags w = (tr0, w1, Returned tt) ->
     missingRequired (substituted (environ w1) flags) ->
     exitStatus (main flags w) = 1%Z /\
     trace (main flags w) = tr0 ++ [EvFatal requiredMsg] /\
     Forall (fun e => ~ opensConnection e) (trace (main flags w))) /\
  (forall e,
     In e (trace (main flags w)) -> opensConnection e ->
     exists tr0 w1,
       loadEnvFile flags w = (tr0, w1, Returned tt) /\
       ~ missingRequired (substituted (environ w1) flags)).
Proof.
  pose proof (loadEnvFile_no_connection flags w) as Hload.
  split.
  - intros tr0 w1 Henv Hmiss.
    rewrite (main_missing _ _ _ _ Henv Hmiss). repeat split.
    rewrite Henv in Hload. run_simpl.
    apply Forall_app. split; [exact Hload |].
    constructor; [| constructor]. intros [dsn H]. discriminate.
  - intros e He Hopen. rewrite Forall_forall in Hload.
    destruct (loadEnvFile flags w) as [[tr0 w1] [[] | status]] eqn:Henv.
    + exists tr0, w1. split; [reflexivity |]. intros Hmiss.
      rewrite (main_missing _ _ _ _ Henv Hmiss) in He. run_simpl.
      apply in_app_or in He as [He | [<- | []]].
      * now apply (Hload e).
      * destruct Hopen as [dsn H]. discriminate.
    + rewrite main_run, Henv in He. now destruct (Hload e He).
Qed.

Lemma required_fields_validation_witness :
  (main noHostFlags quietWorld = ([] ++ [EvFatal requiredMsg], quietWorld, Exited 1) <->
   missingRequired (substituted (environ quietWorld) noHostFlags)) /\
  (~ missingRequired (substituted (environ quietWorld) noHostFlags) ->
   exists rest,
     trace (main noHostFlags quietWorld) =
     [] ++ EvOpen (dsnOf (substituted (environ quietWorld) noHostFlags)) :: rest).
Proof.
  apply (required_fields_validation noHostFlags quietWorld quietWorld []).
  reflexivity.
Defined.

Lemma validation_precedes_connection_witness :
  exitStatus (main scenario3Flags quietWorld) = 1%Z /\
  trace (main scenario3Flags quietWorld) = [] ++ [EvFatal requiredMsg] /\
  Forall (fun e => ~ opensConnection e) (trace (main scenario3Flags quietWorld)).
Proof.
  apply (proj1 (validation_precedes_connection scenario3Flags quietWorld)
               [] quietWorld).
  - reflexivity.
  - right. right. right. vm_compute. reflexivity.
Defined.

(** ** Runs of [generateModel] *)

Lemma generateModel_run (db : Gorm.DB) (tableName destPath : string) (w : World) :
  generateModel db tableName destPath w =
  match Gorm.ColumnTypes db tableName with
  | Err err =>
      ([EvColumnTypes tableName;
        EvFatal ("Failed to get columns for table " +:+ tableName +:+ ": " +:+ err)],
       w, Exited 1)
  | Ok columnTypes =>
      let table := tableOf tableName columnTypes in
      let path := modelPath destPath tableName columnTypes in
      match createErr w path with
      | Some err =>
          ([EvColumnTypes tableName; EvCreate path;
            EvFatal ("Failed to create file: " +:+ err)], w, Exited 1)
      | None =>
          match writeErr w path with
          | Some err =>
              ([EvColumnTypes tableName; EvCreate path;
                EvFatal ("Failed to execute template: " +:+ err)],
               setFiles (<[path := ""]> (files w)) w, Exited 1)
          | None =>
              ([EvColumnTypes tableName; EvCreate path;
                EvWrite path (modelTemplate table)],
               setFiles (<[path := modelTemplate table]> (<[path := ""]> (files w)))
                        (setFiles (<[path := ""]> (files w)) w),
               Returned tt)
          end
      end
  end.
Proof.
  unfold generateModel, modelPath. rewrite bind_run. unfold db_ColumnTypes at 1.
  destruct (Gorm.ColumnTypes db tableName) as [columnTypes | err]; [| reflexivity].
  cbv zeta. rewrite bind_run. unfold os_Create at 1.
  destruct (createErr w _) as [err |]; [reflexivity |].
  rewrite bind_run. unfold tmpl_Execute at 1. cbn [writeErr setFiles].
  now destruct (writeErr w _) as [err |].
Qed.

Section GeneratedFile.
Variables (db : Gorm.DB) (tableName destPath : string) (w : World).
Variable columnTypes : list Gorm.ColumnType.
Hypothesis Hdb : Gorm.ColumnTypes db tableName = Ok columnTypes.

(** When the catalog answers and the file can be created and written,
    [generateModel] returns with the rendered template in the file. *)
Lemma generateModel_writes :
  createErr w (modelPath destPath tableName columnTypes) = None ->
  writeErr w (modelPath destPath tableName columnTypes) = None ->
  let run := generateModel db tableName destPath w in
  trace run =
    [EvColumnTypes tableName;
     EvCreate (modelPath destPath tableName columnTypes);
     EvWrite (modelPath destPath tableName columnTypes)
             (modelTemplate (tableOf tableName columnTypes))] /\
  result_of run = Returned tt /\
  files (final run) !! modelPath destPath tableName columnTypes =
    Some (modelTemplate (tableOf tableName columnTypes)).
Proof.
  intros Hc Hw. cbv zeta. rewrite generateModel_run, Hdb. cbv zeta.
  rewrite Hc, Hw. run_simpl. repeat split. apply lookup_insert_eq.
Qed.

(** What is written is the rendered template, to the file of the table. *)
Lemma generateModel_written (path text : string) :
  In (EvWrite path text) (trace (generateModel db tableName destPath w)) ->
  path = modelPath destPath tableName columnTypes /\
  text = modelTemplate (tableOf tableName columnTypes) /\
  files (final (generateModel db tableName destPath w)) !! path = Some text.
Proof.
  rewrite generateModel_run, Hdb. cbv zeta.
  destruct (createErr w _) as [err |]; [run_simpl; intuition discriminate |].
  destruct (writeErr w _) as [err |]; [run_simpl; intuition discriminate |].
  run_simpl. intros [H | [H | [H | []]]]; try discriminate.
  injection H as <- <-. repeat split. apply lookup_insert_eq.
Qed.

End GeneratedFile.

(** C9: two runs of the generation step on the same table name, the same
    destination path and the same ordered column descriptors write the same
    text to the same file, whatever else differs between their
    surroundings; the text is the template rendered on the table built
    from the name and the descriptors. *)
Theorem generation_deterministic
    (db1 db2 : Gorm.DB) (w1 w2 : World) (tableName destPath : string)
    (columnTypes : list Gorm.ColumnType) (path1 text1 path2 text2 : string)
    (Hdb1 : Gorm.ColumnTypes db1 tableName = Ok columnTypes)
    (Hdb2 : Gorm.ColumnTypes db2 tableName = Ok columnTypes)
    (Hrun1 : In (EvWrite path1 text1) (trace (generateModel db1 tableName destPath w1)))
    (Hrun2 : In (EvWrite path2 text2) (trace (generateModel db2 tableName destPath w2))) :
  path1 = path2 /\ text1 = text2 /\
  text1 = modelTemplate (tableOf tableName columnTypes) /\
  files (final (generateModel db1 tableName destPath w1)) !! path1 =
  files (final (generateModel db2 tableName destPath w2)) !! path2.
Proof.
  destruct (generateModel_written _ _ _ _ _ Hdb1 _ _ Hrun1) as (-> & -> & F1).
  destruct (generateModel_written _ _ _ _ _ Hdb2 _ _ Hrun2) as (-> & -> & F2).
  repeat split. now rewrite F1, F2.
Qed.

Lemma generation_deterministic_witness :
  "./User.go" = "./User.go" /\ usersFile = usersFile /\
  usersFile = modelTemplate (tableOf "users" usersColumns) /\
  files (final (generateModel usersDB "users" "." quietWorld)) !! "./User.go" =
  files (final (generateModel shopDB "users" "." busyWorld)) !! "./User.go".
Proof.
  apply (generation_deterministic usersDB shopDB quietWorld busyWorld
           "users" "." usersColumns "./User.go" usersFile "./User.go" usersFile).
  - reflexivity.
  - reflexivity.
  - vm_compute. right. right. left. reflexivity.
  - vm_compute. right. right. left. reflexivity.
Defined.

(** ** Scenario 1: the table [users] *)

(** C4: for the table [users] with the catalog columns [id int],
    [email varchar], [created_at datetime], the table handed to the template
    has the type name [User], the database name [users], the fields [Id int],
    [Email string], [CreatedAt time.Time] in this order and the one import
    [time]; the rendered file declares [type User struct] and its
    [TableName] method returns the literal ["users"]; and this file is what
    [generateModel] writes to [<dest>/User.go]. *)
Theorem users_scenario :
  tableOf "users" usersColumns = usersTable /\
  modelTemplate usersTable = usersFile /\
  forall (db : Gorm.DB) (destPath : string) (w : World),
    Gorm.ColumnTypes db "users" = Ok usersColumns ->
    createErr w (destPath +:+ "/User.go") = None ->
    writeErr w (destPath +:+ "/User.go") = None ->
    trace (generateModel db "users" destPath w) =
      [ EvColumnTypes "users";
        EvCreate (destPath +:+ "/User.go");
        EvWrite (destPath +:+ "/User.go") usersFile ] /\
    files (final (generateModel db "users" destPath w)) !! (destPath +:+ "/User.go") =
      Some usersFile.
Proof.
  split; [reflexivity | split; [reflexivity |]].
  intros db destPath w Hdb Hc Hw.
  destruct (generateModel_writes db "users" destPath w usersColumns Hdb Hc Hw)
    as (Htr & _ & Hfile).
  split; [exact Htr | exact Hfile].
Qed.

Lemma users_scenario_witness :
  trace (generateModel usersDB "users" "." quietWorld) =
    [ EvColumnTypes "users"; EvCreate "./User.go"; EvWrite "./User.go" usersFile ] /\
  files (final (generateModel usersDB "users" "." quietWorld)) !! "./User.go" =
    Some usersFile.
Proof.
  apply (proj2 (proj2 users_scenario) usersDB "." quietWorld); reflexivity.
Defined.

(** ** Examples *)

Example camelCase_user_id : camelCase "user_id" = "UserId".
Proof. reflexivity. Qed.

Example camelCase_keeps_inner_case : camelCase "createdAt_utc" = "CreatedAtUtc".
Proof. reflexivity. Qed.

Example Singular_categories : Inflection.Singular "categories" = "category".
Proof. reflexivity. Qed.

Example order_items_scenario :
  let table := tableOf "order_items" [Gorm.Build_ColumnType "metadata" "json"] in
  TableName table = "OrderItem" /\
  Columns table =
    [{| Name := "Metadata"; GormName := "metadata"; Type_ := "json.RawMessage" |}] /\
  ModelImports table = ["encoding/json"].
Proof. repeat split. Qed.


(** * Part IV: further properties of the code *)

(** ** [camelCase] on arbitrary names *)

Lemma append_assoc (a b c : string) : (a +:+ b) +:+ c = a +:+ b +:+ c.
Proof.
  induction a as [|x a IH]; [reflexivity |].
  now rewrite !append_cons, IH.
Qed.

Lemma concat_app (l1 l2 : list string) :
  fold_right String.append "" (l1 ++ l2) =
  fold_right String.append "" l1 +:+ fold_right String.append "" l2.
Proof.
  induction l1 as [|x l1 IH]; [reflexivity |].
  cbn [app fold_right]. now rewrite IH, append_assoc.
Qed.

Lemma Split_app (a b : string) (sep : ascii) :
  Split (a +:+ String sep b) sep = Split a sep ++ Split b sep.
Proof.
  induction a as [|c a IH].
  - cbn [String.append]. simpl. now rewrite Ascii.eqb_refl.
  - rewrite append_cons. cbn [Split]. rewrite IH.
    destruct (Ascii.eqb c sep); [reflexivity |].
    destruct (Split a sep) as [|part parts] eqn:E; [| reflexivity].
    now destruct (Split_not_nil a sep).
Qed.

(** X1: the names joined by an underscore are transformed one by one:
    [camelCase (a_b)] is [camelCase a] followed by [camelCase b]. *)
Theorem camelCase_underscore_join (a b : string) :
  camelCase (a +:+ "_" +:+ b) = camelCase a +:+ camelCase b.
Proof.
  rewrite !camelCase_unfold. change ("_" +:+ b) with (String "_" b).
  now rewrite Split_app, map_app, concat_app.
Qed.













(** ** The struct built by [generateModel] *)

(** X4: the struct has one field per catalog column, in the catalog's
    order: the tag of a field is the column name as the catalog gives it,
    its name is [camelCase] of that name, and its type is decided by the
    database type of its own column alone. *)
Theorem columns_follow_catalog (tableName : string)
    (columnTypes : list Gorm.ColumnType) :
  map GormName (Columns (tableOf tableName columnTypes)) =
    map Gorm.Name columnTypes /\
  map Name (Columns (tableOf tableName columnTypes)) =
    map (fun ct => camelCase (Gorm.Name ct)) columnTypes /\
  map Type_ (Columns (tableOf tableName columnTypes)) =
    map (fun ct => (switchTypeName (Gorm.DatabaseTypeName ct) []).1) columnTypes.
Proof.
  rewrite tableOf_fields. cbn [Columns]. rewrite !map_map. repeat split.
Qed.

Lemma switchTypeName_range (name : string) (imports : list string) :
  In (switchTypeName name imports).1 goTypeNames.
Proof. unfold switchTypeName. case_oneOf name; simpl; tauto. Qed.

(** X5: whatever the catalog reports as database type, the type of a field
    is one of the eight Go types of the switch; the reported name itself is
    never written out as a type. *)
Theorem field_types_are_go_types (tableName : string)
    (columnTypes : list Gorm.ColumnType) :
  Forall (fun column => In (Type_ column) goTypeNames)
         (Columns (tableOf tableName columnTypes)).
Proof.
  rewrite tableOf_fields. cbn [Columns]. apply Forall_forall.
  intros column Hin. apply in_map_iff in Hin as (ct & <- & _).
  apply switchTypeName_range.
Qed.

Lemma type_time_iff (name : string) :
  (switchTypeName name []).1 = "time.Time" <-> needsTime name = true.
Proof.
  unfold needsTime, switchTypeName.
  destruct (oneOf name ["datetime"; "timestamp"; "date"; "time"]);
    [tauto |].
  case_oneOf name; split; discriminate.
Qed.

Lemma type_json_iff (name : string) :
  (switchTypeName name []).1 = "json.RawMessage" <-> needsJSON name = true.
Proof.
  unfold needsJSON. destruct (oneOf name ["json"]) eqn:J.
  - apply oneOf_In in J. simpl in J. destruct J as [<- | []]. now split.
  - unfold switchTypeName. rewrite J. case_oneOf name; split; discriminate.
Qed.

(** X6: the import list matches the field types: [time] is imported
    exactly when some field has the type [time.Time], and [encoding/json]
    exactly when some field has the type [json.RawMessage]; the generated
    file has neither a missing nor an unused import. *)
Theorem imports_match_field_types (tableName : string)
    (columnTypes : list Gorm.ColumnType) :
  (In "time" (ModelImports (tableOf tableName columnTypes)) <->
   Exists (fun column => Type_ column = "time.Time")
          (Columns (tableOf tableName columnTypes))) /\
  (In "encoding/json" (ModelImports (tableOf tableName columnTypes)) <->
   Exists (fun column => Type_ column = "json.RawMessage")
          (Columns (tableOf tableName columnTypes))).
Proof.
  rewrite tableOf_fields. cbn [ModelImports Columns].
  destruct (fold_importStep columnTypes []) as (_ & Htime & Hjson);
    [simpl; tauto |].
  cbv zeta in Htime, Hjson. rewrite Htime, Hjson, !Exists_exists. simpl.
  split; split.
  - intros [[] | (ct & Hin & H)]. exists (columnOf ct).
    split; [now apply in_map | now apply type_time_iff].
  - intros (column & Hin & H). right.
    apply in_map_iff in Hin as (ct & <- & Hin).
    exists ct. split; [exact Hin | now apply type_time_iff].
  - intros [[] | (ct & Hin & H)]. exists (columnOf ct).
    split; [now apply in_map | now apply type_json_iff].
  - intros (column & Hin & H). right.
    apply in_map_iff in Hin as (ct & <- & Hin).
    exists ct. split; [exact Hin | now apply type_json_iff].
Qed.

(** ** The rendered template *)

Lemma HasPrefix_app (x b : string) : HasPrefix (x +:+ b) x = true.
Proof.
  induction x as [|c x IH]; [change ("" +:+ b) with b; now destruct b |].
  rewrite append_cons. cbn [HasPrefix]. now rewrite Ascii.eqb_refl, IH.
Qed.

Lemma HasPrefix_app_l (a b x : string) :
  HasPrefix a x = true -> HasPrefix (a +:+ b) x = true.
Proof.
  revert a. induction x as [|c x IH]; intros a H;
    [now destruct (a +:+ b) |].
  destruct a as [|d a]; [discriminate |].
  rewrite append_cons. cbn [HasPrefix] in *.
  apply andb_prop in H as [H1 H2]. now rewrite H1, IH.
Qed.

Lemma HasPrefix_refl (x : string) : HasPrefix x x = true.
Proof.
  induction x as [|c x IH]; [reflexivity |].
  cbn [HasPrefix]. now rewrite Ascii.eqb_refl, IH.
Qed.

Lemma Contains_prefix (s x : string) :
  HasPrefix s x = true -> Contains s x = true.
Proof. intros H. destruct s; cbn [Contains]; now rewrite H. Qed.

Lemma Contains_here (x b : string) : Contains (x +:+ b) x = true.
Proof. apply Contains_prefix, HasPrefix_app. Qed.

Lemma Contains_refl (x : string) : Contains x x = true.
Proof. apply Contains_prefix, HasPrefix_refl. Qed.

Lemma Contains_app_r (a b x : string) :
  Contains b x = true -> Contains (a +:+ b) x = true.
Proof.
  intros H. induction a as [|c a IH]; [exact H |].
  rewrite append_cons. cbn [Contains]. rewrite IH. apply orb_true_r.
Qed.

Lemma Contains_app_l (a b x : string) :
  Contains a x = true -> Contains (a +:+ b) x = true.
Proof.
  induction a as [|c a IH]; intros H.
  - cbn [Contains] in H. rewrite orb_false_r in H.
    destruct x; [| discriminate]. apply Contains_prefix.
    change ("" +:+ b) with b. now destruct b.
  - rewrite append_cons. cbn [Contains] in *.
    apply orb_prop in H as [H | H].
    + rewrite <- append_cons, (HasPrefix_app_l _ _ _ H). reflexivity.
    + rewrite (IH H). apply orb_true_r.
Qed.

Lemma Contains_concatMap {A : Type} (f : A -> string) (l : list A) (x : A)
    (part : string) :
  In x l -> Contains (f x) part = true -> Contains (concatMap f l) part = true.
Proof.
  intros Hin Hpart. induction l as [|y l IH]; [destruct Hin |].
  cbn [concatMap fold_right]. destruct Hin as [-> | Hin].
  - now apply Contains_app_l.
  - apply Contains_app_r. now apply IH.
Qed.

(** X7: the rendered file shows every column, every import and the table
    name: it contains the field line of each column of the table, the
    import line of each import, and a [TableName] body that returns the
    database table name between quotes. *)
Theorem template_shows_table (t : Table) :
  (forall c, In c (Columns t) -> Contains (modelTemplate t) (fieldLine c) = true) /\
  (forall imp, In imp (ModelImports t) ->
     Contains (modelTemplate t) (importLine imp) = true) /\
  Contains (modelTemplate t) (accessorLine t) = true.
Proof.
  unfold modelTemplate. repeat split.
  - intros c Hc. do 11 apply Contains_app_r. apply Contains_app_l.
    apply Contains_concatMap with c; [exact Hc |].
    apply Contains_app_r. apply Contains_refl.
  - intros imp Himp. do 3 apply Contains_app_r. apply Contains_app_l.
    destruct (ModelImports t) as [|i l] eqn:E; [destruct Himp |].
    rewrite <- E in *. do 3 apply Contains_app_r. apply Contains_app_l.
    apply Contains_concatMap with imp; [exact Himp |].
    apply Contains_app_r. unfold importLine.
    rewrite <- !append_assoc. apply Contains_here.
  - do 20 apply Contains_app_r. unfold accessorLine.
    rewrite <- !append_assoc.
    repeat first [apply Contains_here | apply Contains_app_l].
Qed.

Lemma template_shows_table_witness :
  Contains (modelTemplate usersTable)
    (fieldLine {| Name := "Email"; GormName := "email"; Type_ := "string" |}) = true.
Proof.
  apply (proj1 (template_shows_table usersTable)). simpl. tauto.
Defined.

(** ** The configuration *)

Lemma Getenv_union (e fileVars : gmap string string) (key : string) :
  Getenv (e ∪ fileVars) key =
  match e !! key with
  | Some v => v
  | None => default "" (fileVars !! key)
  end.
Proof.
  unfold Getenv. rewrite lookup_union.
  destruct (e !! key), (fileVars !! key); reflexivity.
Qed.

Lemma orEnv_precedence (e fileVars : gmap string string) (flag key : string) :
  orEnv (e ∪ fileVars) flag key = precedence flag key e fileVars.
Proof. unfold orEnv, precedence. now rewrite Getenv_union. Qed.

Lemma loadEnvFile_run (flags : Flags) (w : World) :
  loadEnvFile flags w =
  if statOk w (env flags) then
    match dotenvRead w (env flags) with
    | Ok envMap =>
        ([EvLoadEnv (env flags)], setEnviron (environ w ∪ envMap) w, Returned tt)
    | Err err =>
        ([EvLoadEnv (env flags); EvFatal ("Error loading .env file: " +:+ err)],
         w, Exited 1)
    end
  else ([], w, Returned tt).
Proof.
  unfold loadEnvFile. rewrite bind_run. unfold os_Stat. cbv beta iota.
  destruct (statOk w (env flags)); [| reflexivity].
  rewrite bind_run. unfold godotenv_Load.
  now destruct (dotenvRead w (env flags)) as [envMap | err].
Qed.

Lemma loadEnvFile_environ (flags : Flags) (w : World)
    (fileVars : gmap string string) :
  envFileVars flags w = Some fileVars ->
  result_of (loadEnvFile flags w) = Returned tt /\
  environ (final (loadEnvFile flags w)) = environ w ∪ fileVars /\
  files (final (loadEnvFile flags w)) = files w.
Proof.
  unfold envFileVars. rewrite loadEnvFile_run.
  destruct (statOk w (env flags)).
  - destruct (dotenvRead w (env flags)) as [envMap | err]; [| discriminate].
    intros [= <-]. run_simpl. repeat split.
  - intros [= <-]. run_simpl. repeat split. now rewrite (right_id_L ∅ (∪)).
Qed.

(** X8: the configuration is resolved with the precedence flag, then
    process environment, then [.env] file: when the [.env] stage does not
    fail, each of the six settings is the flag if it is given, otherwise
    the variable of the process environment if it is set (even to the
    empty string), otherwise the variable of the [.env] file, otherwise
    empty; a missing [.env] file counts as one without variables. *)
Theorem configuration_precedence (flags : Flags) (w : World)
    (fileVars : gmap string string)
    (H : envFileVars flags w = Some fileVars) :
  result_of ((loadEnvFile flags ;; substituteEnv flags) w) =
  Returned
    {| dest := dest flags; env := env flags;
       dbuser := precedence (dbuser flags) "DB_USER" (environ w) fileVars;
       dbpassword := precedence (dbpassword flags) "DB_PASSWORD" (environ w) fileVars;
       dbhost := precedence (dbhost flags) "DB_HOST" (environ w) fileVars;
       dbport := precedence (dbport flags) "DB_PORT" (environ w) fileVars;
       dbname := precedence (dbname flags) "DB_NAME" (environ w) fileVars;
       tables := precedence (tables flags) "TABLES" (environ w) fileVars |}.
Proof.
  destruct (loadEnvFile_environ _ _ _ H) as (Hres & Henv & _).
  rewrite bind_run.
  destruct (loadEnvFile flags w) as [[tr0 w1] o]. run_simpl. subst o.
  rewrite substituteEnv_run. run_simpl. unfold substituted.
  now rewrite Henv, !orEnv_precedence.
Qed.

Lemma configuration_precedence_witness :
  result_of ((loadEnvFile dotenvFlags ;; substituteEnv dotenvFlags) dotenvWorld) =
  Returned
    {| dest := "out"; env := ".env"; dbuser := "admin"; dbpassword := "secret";
       dbhost := ""; dbport := ""; dbname := "inventory"; tables := "users" |}.
Proof.
  rewrite (configuration_precedence dotenvFlags dotenvWorld
             {[ "DB_USER" := "fromfile"; "TABLES" := "users"; "DB_NAME" := "shop" ]});
    [| reflexivity].
  vm_compute. reflexivity.
Defined.

(** ** Runs: how the steps compose *)

Lemma forEach_cons {A : Type} (x : A) (l : list A) (body : A -> Proc unit)
    (w : World) :
  forEach (x :: l) body w =
  match body x w with
  | (tr, w1, Returned _) =>
      match forEach l body w1 with
      | (tr2, w2, o) => (tr ++ tr2, w2, o)
      end
  | (tr, w1, Exited status) => (tr, w1, Exited status)
  end.
Proof. reflexivity. Qed.

Lemma connectAndGenerate_run (flags : Flags) (w : World) :
  connectAndGenerate flags w =
  match mysqlOpen w (dsnOf flags) with
  | Err err =>
      ([EvOpen (dsnOf flags); EvFatal ("Failed to connect to database: " +:+ err)],
       w, Exited 1)
  | Ok db =>
      match generateAll db (dest flags) (Split (tables flags) ",") w with
      | (tr, w2, o) => (EvOpen (dsnOf flags) :: tr, w2, o)
      end
  end.
Proof.
  unfold connectAndGenerate. fold (dsnOf flags). rewrite bind_run.
  unfold gorm_Open. now destruct (mysqlOpen w (dsnOf flags)) as [db | err].
Qed.

Section FatalLast.
Context {A B : Type}.


End FatalLast.






(** ** Runs: the loop over the tables *)


Lemma queried_app (tr1 tr2 : list event) :
  queried (tr1 ++ tr2) = queried tr1 ++ queried tr2.
Proof.
  induction tr1 as [|e tr1 IH]; [reflexivity |].
  destruct e; simpl; now rewrite IH.
Qed.

(** What one call of [generateModel] does, whatever its outcome. *)
Lemma generateModel_step (db : Gorm.DB) (tableName destPath : string)
    (w : World) :
  let run := generateModel db tableName destPath w in
  queried (trace run) = [tableName] /\
  Forall (fun e => isOpen e = false) (trace run) /\
  environ (final run) = environ w /\
  createErr (final run) = createErr w /\
  writeErr (final run) = writeErr w /\
  (forall p, (forall cts, p <> modelPath destPath tableName cts) ->
             files (final run) !! p = files w !! p) /\
  (result_of run = Returned tt ->
   exists cts,
     Gorm.ColumnTypes db tableName = Ok cts /\
     In (EvWrite (modelPath destPath tableName cts)
                 (modelTemplate (tableOf tableName cts))) (trace run)).
Proof.
  cbv zeta. rewrite generateModel_run.
  destruct (Gorm.ColumnTypes db tableName) as [cts | err]; cbv zeta.
  2: { run_simpl. repeat split; try discriminate. repeat constructor. }
  destruct (createErr w _) as [err |] eqn:Hc.
  { run_simpl. repeat split; try discriminate. repeat constructor. }
  destruct (writeErr w _) as [err |] eqn:Hw; run_simpl.
  - repeat split; try discriminate; [repeat constructor |].
    intros p Hp. apply lookup_insert_ne. intros E. now apply (Hp cts).
  - repeat split; [repeat constructor | |].
    + intros p Hp. rewrite !lookup_insert_ne; [reflexivity | |];
        intros E; now apply (Hp cts).
    + intros _. exists cts. split; [reflexivity | tauto].
Qed.

Lemma generateAll_cons (db : Gorm.DB) (destPath tableName : string)
    (tableNames : list string) (w : World) :
  generateAll db destPath (tableName :: tableNames) w =
  match generateModel db tableName destPath w with
  | (tr, w1, Returned _) =>
      match generateAll db destPath tableNames w1 with
      | (tr2, w2, o) => (tr ++ tr2, w2, o)
      end
  | (tr, w1, Exited status) => (tr, w1, Exited status)
  end.
Proof. reflexivity. Qed.

Lemma generateAll_app (db : Gorm.DB) (destPath : string)
    (l1 l2 : list string) (w : World) :
  generateAll db destPath (l1 ++ l2) w =
  match generateAll db destPath l1 w with
  | (tr, w1, Returned _) =>
      match generateAll db destPath l2 w1 with
      | (tr2, w2, o) => (tr ++ tr2, w2, o)
      end
  | (tr, w1, Exited status) => (tr, w1, Exited status)
  end.
Proof.
  revert w. induction l1 as [|t l1 IH]; intros w.
  - cbn [app].
    change (generateAll db destPath [] w) with ([] : list event, w, Returned tt).
    cbv beta iota. now destruct (generateAll db destPath l2 w) as [[tr2 w2] o].
  - cbn [app]. rewrite !generateAll_cons.
    destruct (generateModel db t destPath w) as [[tr w1] [[] | status]];
      [| reflexivity].
    rewrite IH.
    destruct (generateAll db destPath l1 w1) as [[tr1 w2] [[] | status]];
      [| reflexivity].
    destruct (generateAll db destPath l2 w2) as [[tr2 w3] o].
    now rewrite app_assoc.
Qed.

(** What the loop does, whatever its outcome. *)
Lemma generateAll_steps (db : Gorm.DB) (destPath : string)
    (tableNames : list string) (w : World) :
  let run := generateAll db destPath tableNames w in
  (exists rest, tableNames = queried (trace run) ++ rest) /\
  Forall (fun e => isOpen e = false) (trace run) /\
  environ (final run) = environ w /\
  (forall p, (forall t cts, In t tableNames -> p <> modelPath destPath t cts) ->
             files (final run) !! p = files w !! p) /\
  (result_of run = Returned tt ->
   queried (trace run) = tableNames /\
   forall t, In t tableNames ->
     exists cts,
       Gorm.ColumnTypes db t = Ok cts /\
       In (EvWrite (modelPath destPath t cts) (modelTemplate (tableOf t cts)))
          (trace run)).
Proof.
  cbv zeta. revert w. induction tableNames as [|t l IH]; intros w.
  - run_simpl. repeat split; try constructor; try tauto. now exists [].
  - rewrite generateAll_cons.
    destruct (generateModel_step db t destPath w)
      as (Hq & Ho & He & _ & _ & Hf & Hr).
    destruct (generateModel db t destPath w) as [[tr w1] [[] | status]];
      run_simpl.
    + destruct (IH w1) as ((rest & Hrest) & Ho' & He' & Hf' & Hr').
      destruct (generateAll db destPath l w1) as [[tr2 w2] o]. run_simpl.
      rewrite queried_app, Hq. repeat split.
      * exists rest. simpl. now f_equal.
      * now apply Forall_app.
      * congruence.
      * intros p Hp. rewrite Hf', Hf; [reflexivity | |];
          intros; apply Hp; tauto.
      * simpl. f_equal. now apply Hr'.
      * intros t' [<- | Hin].
        -- destruct (Hr eq_refl) as (cts & Hdb & Hin). exists cts.
           split; [exact Hdb | apply in_or_app; now left].
        -- destruct (Hr' H) as [_ Hall]. destruct (Hall t' Hin) as (cts & Hdb & Hw).
           exists cts. split; [exact Hdb | apply in_or_app; now right].
    + rewrite Hq. repeat split; try discriminate; try assumption.
      * now exists l.
      * intros p Hp. apply Hf. intros cts. apply Hp. now left.
Qed.

(** ** Runs of [main], case by case *)

Lemma loadEnvFile_quiet (flags : Flags) (w : World) :
  let run := loadEnvFile flags w in
  Forall (fun e => isOpen e = false /\ usesDatabase e = false) (trace run) /\
  queried (trace run) = [] /\
  files (final run) = files w /\
  (forall k v, environ w !! k = Some v -> environ (final run) !! k = Some v) /\
  (forall status, result_of run = Exited status -> status = 1%Z).
Proof.
  cbv zeta. rewrite loadEnvFile_run.
  destruct (statOk w (env flags));
    [| run_simpl; repeat split; auto; discriminate].
  destruct (dotenvRead w (env flags)) as [envMap | err]; run_simpl.
  - repeat split; [repeat constructor | | discriminate].
    intros k v H. now apply lookup_union_Some_l.
  - repeat split; auto; try (repeat constructor). now intros status [= <-].
Qed.

(** The four ways a run of [main] can go. *)
Lemma main_shape (flags : Flags) (w : World) :
  let r0 := loadEnvFile flags w in
  let cfg := substituted (environ (final r0)) flags in
  (result_of r0 = Exited 1 /\ main flags w = r0) \/
  (result_of r0 = Returned tt /\ missingRequired cfg /\
   main flags w = (trace r0 ++ [EvFatal requiredMsg], final r0, Exited 1)) \/
  (result_of r0 = Returned tt /\ ~ missingRequired cfg /\
   exists err,
     mysqlOpen (final r0) (dsnOf cfg) = Err err /\
     main flags w =
     (trace r0 ++ [EvOpen (dsnOf cfg);
                   EvFatal ("Failed to connect to database: " +:+ err)],
      final r0, Exited 1)) \/
  (result_of r0 = Returned tt /\ ~ missingRequired cfg /\
   exists db,
     mysqlOpen (final r0) (dsnOf cfg) = Ok db /\
     let r := generateAll db (dest flags) (Split (tables cfg) ",") (final r0) in
     main flags w = (trace r0 ++ EvOpen (dsnOf cfg) :: trace r, final r, result_of r)).
Proof.
  cbv zeta. rewrite main_run.
  destruct (loadEnvFile_quiet flags w) as (_ & _ & _ & _ & Hstatus).
  destruct (loadEnvFile flags w) as [[tr0 w1] [[] | status]]; run_simpl.
  2: { left. now rewrite (Hstatus status eq_refl). }
  right.
  destruct (missingRequired_dec (substituted (environ w1) flags)) as [M | P].
  { left. rewrite (requireFields_missing _ _ M). repeat split. exact M. }
  right. rewrite (requireFields_present _ _ P), connectAndGenerate_run.
  destruct (mysqlOpen w1 (dsnOf (substituted (environ w1) flags))) as [db | err].
  - right. repeat split; [exact P |]. exists db. split; [reflexivity |].
    change (dest (substituted (environ w1) flags)) with (dest flags).
    now destruct (generateAll db (dest flags) _ w1) as [[tr w2] o].
  - left. repeat split; [exact P |]. now exists err.
Qed.

(** X10: a run opens at most one connection, and uses it for every table:
    the run is a first part without any connection attempt, catalog query
    or file operation, followed either by nothing or by one connection
    attempt and then no further one. *)
Theorem connection_opened_once (flags : Flags) (w : World) :
  exists pre post,
    trace (main flags w) = pre ++ post /\
    Forall (fun e => isOpen e = false /\ usesDatabase e = false) pre /\
    (post = [] \/
     exists dsn rest,
       post = EvOpen dsn :: rest /\ Forall (fun e => isOpen e = false) rest).
Proof.
  destruct (loadEnvFile_quiet flags w) as (Hq & _).
  destruct (main_shape flags w)
    as [(_ & ->) | [(_ & _ & ->) | [(_ & _ & err & _ & ->) |
        (_ & _ & db & _ & ->)]]]; run_simpl.
  - exists (loadEnvFile flags w).1.1, []. rewrite app_nil_r. auto.
  - eexists _, []. rewrite app_nil_r. split; [reflexivity |].
    split; [| now left]. apply Forall_app. split; [exact Hq |].
    repeat constructor.
  - eexists _, _. split; [reflexivity |]. split; [exact Hq |].
    right. eexists _, _. split; [reflexivity | repeat constructor].
  - eexists _, _. split; [reflexivity |]. split; [exact Hq |].
    right. eexists _, _. split; [reflexivity |].
    apply (generateAll_steps db (dest flags)).
Qed.





(** X13: the run never changes a variable of the process environment
    that is set: such a variable has the same value after the run, whatever
    the [.env] file holds. *)
Theorem environment_never_overridden (flags : Flags) (w : World)
    (key value : string) (H : environ w !! key = Some value) :
  environ (final (main flags w)) !! key = Some value.
Proof.
  destruct (loadEnvFile_quiet flags w) as (_ & _ & _ & He & _).
  specialize (He key value H).
  destruct (main_shape flags w)
    as [(_ & ->) | [(_ & _ & ->) | [(_ & _ & err & _ & ->) |
        (_ & _ & db & _ & ->)]]]; run_simpl; try exact He.
  destruct (generateAll_steps db (dest flags)
              (Split (tables (substituted (environ (loadEnvFile flags w).1.2) flags)) ",")
              (loadEnvFile flags w).1.2) as (_ & _ & Henv & _).
  run_simpl. now rewrite Henv.
Qed.

Lemma environment_never_overridden_witness :
  environ (final (main dotenvFlags dotenvWorld)) !! "DB_USER" = Some "admin".
Proof.
  apply (environment_never_overridden dotenvFlags dotenvWorld "DB_USER" "admin").
  vm_compute. reflexivity.
Defined.

(** X14: a table the catalog does not answer for stops the loop: the
    files of the tables before it are written and stay, no file is created
    for the table itself, the tables after it are not looked at, and the
    process exits with status 1. *)
Theorem missing_table_stops_run (db : Gorm.DB) (destPath : string)
    (before after : list string) (tableName err : string) (w : World)
    (Hbefore : result_of (generateAll db destPath before w) = Returned tt)
    (Hmissing : Gorm.ColumnTypes db tableName = Err err) :
  generateAll db destPath (before ++ tableName :: after) w =
  (trace (generateAll db destPath before w) ++
     [EvColumnTypes tableName;
      EvFatal ("Failed to get columns for table " +:+ tableName +:+ ": " +:+ err)],
   final (generateAll db destPath before w),
   Exited 1).
Proof.
  rewrite generateAll_app.
  destruct (generateAll db destPath before w) as [[tr w1] o]. run_simpl.
  subst o. now rewrite generateAll_cons, generateModel_run, Hmissing.
Qed.

Lemma missing_table_stops_run_witness :
  generateAll shopDB "." (["users"] ++ "orders" :: ["order_items"]) quietWorld =
  (trace (generateAll shopDB "." ["users"] quietWorld) ++
     [EvColumnTypes "orders";
      EvFatal ("Failed to get columns for table " +:+ "orders" +:+ ": " +:+
               "table not found")],
   final (generateAll shopDB "." ["users"] quietWorld),
   Exited 1).
Proof.
  apply (missing_table_stops_run shopDB "." ["users"] ["order_items"] "orders"
           "table not found" quietWorld); reflexivity.
Defined.

(** X15: two tables with the same generated type name share one file, and
    the later one silently replaces the earlier one: after both are
    generated, the file holds the struct of the second table only. *)
Theorem same_type_name_overwrites (db : Gorm.DB) (destPath t1 t2 : string)
    (cts1 cts2 : list Gorm.ColumnType) (w : World)
    (H1 : Gorm.ColumnTypes db t1 = Ok cts1)
    (H2 : Gorm.ColumnTypes db t2 = Ok cts2)
    (Hname : TableName (tableOf t1 cts1) = TableName (tableOf t2 cts2))
    (Hcreate : createErr w (modelPath destPath t1 cts1) = None)
    (Hwrite : writeErr w (modelPath destPath t1 cts1) = None) :
  result_of (generateAll db destPath [t1; t2] w) = Returned tt /\
  files (final (generateAll db destPath [t1; t2] w)) !! modelPath destPath t1 cts1 =
    Some (modelTemplate (tableOf t2 cts2)).
Proof.
  assert (Hpath : modelPath destPath t2 cts2 = modelPath destPath t1 cts1)
    by (unfold modelPath; now rewrite Hname).
  rewrite generateAll_cons, generateModel_run, H1. cbv zeta.
  rewrite Hcreate, Hwrite. cbv beta iota.
  rewrite generateAll_cons, generateModel_run, H2. cbv zeta.
  rewrite Hpath. cbn [createErr writeErr setFiles]. rewrite Hcreate, Hwrite.
  run_simpl. split; [reflexivity | apply lookup_insert_eq].
Qed.

Lemma same_type_name_overwrites_witness :
  result_of (generateAll userTablesDB "." ["users"; "user"] quietWorld) = Returned tt /\
  files (final (generateAll userTablesDB "." ["users"; "user"] quietWorld))
    !! modelPath "." "users" usersColumns =
    Some (modelTemplate (tableOf "user" [Gorm.Build_ColumnType "id" "bigint"])).
Proof.
  apply (same_type_name_overwrites userTablesDB "." "users" "user" usersColumns
           [Gorm.Build_ColumnType "id" "bigint"] quietWorld); reflexivity.
Defined.

(** X16: a [.env] file that is there and cannot be loaded ends the run at
    once: the flags are not looked at, nothing is connected to and nothing
    is changed, even when every setting is given on the command line. *)
Theorem env_file_error_stops (flags : Flags) (w : World) (err : string)
    (Hstat : statOk w (env flags) = true)
    (Hread : dotenvRead w (env flags) = Err err) :
  main flags w =
  ([EvLoadEnv (env flags); EvFatal ("Error loading .env file: " +:+ err)],
   w, Exited 1).
Proof. now rewrite main_run, loadEnvFile_run, Hstat, Hread. Qed.

Lemma env_file_error_stops_witness :
  main noHostFlags brokenEnvWorld =
  ([EvLoadEnv ""; EvFatal ("Error loading .env file: " +:+ "unexpected character")],
   brokenEnvWorld, Exited 1).
Proof.
  apply (env_file_error_stops noHostFlags brokenEnvWorld "unexpected character");
    reflexivity.
Defined.

(** X17: when the connection cannot be opened the run ends there: no
    catalog is queried and no file is created or written. *)
Theorem connection_failure_stops (flags : Flags) (w w1 : World)
    (tr0 : list event) (err : string)
    (Henv : loadEnvFile flags w = (tr0, w1, Returned tt))
    (Hpresent : ~ missingRequired (substituted (environ w1) flags))
    (Hopen : mysqlOpen w1 (dsnOf (substituted (environ w1) flags)) = Err err) :
  main flags w =
  (tr0 ++ [EvOpen (dsnOf (substituted (environ w1) flags));
           EvFatal ("Failed to connect to database: " +:+ err)],
   w1, Exited 1).
Proof.
  rewrite main_run, Henv, (requireFields_present _ _ Hpresent).
  now rewrite connectAndGenerate_run, Hopen.
Qed.

Lemma connection_failure_stops_witness :
  main noHostFlags offlineWorld =
  ([] ++ [EvOpen (dsnOf (substituted (environ offlineWorld) noHostFlags));
          EvFatal ("Failed to connect to database: " +:+ "connection refused")],
   offlineWorld, Exited 1).
Proof.
  apply (connection_failure_stops noHostFlags offlineWorld offlineWorld []
           "connection refused").
  - reflexivity.
  - vm_compute. intros [H | [H | [H | H]]]; discriminate H.
  - reflexivity.
Defined.
